(** * akon: the OpenConnect test driver and the progress shim

    A shallow embedding of [src/test_openconnect.c] (the auth-form callback
    [process_auth_form_cb] and the driver [main]) and of
    [src/akon-core/progress_shim.c] ([progress_shim]), followed by the
    properties of the natural-language specification that concern them.

    Conventions of the embedding:
    - a C [int] is a [Z]; the code only compares ints with 0 and passes them
      on, so no arithmetic can wrap;
    - a [char *] is an [option string]: [None] is the NULL pointer;
    - a singly linked list ([opt->next]) is a [list];
    - the two stdio streams and the calls made into libopenconnect form the
      state [world], threaded through a state-and-fault monad [M];
    - dereferencing NULL is the explicit result [Fault];
    - string literals are kept as the source spells them: the escape
      [\n] stays a backslash followed by [n]. *)

From Stdlib Require Import ZArith Lia.
From stdpp Require Import gmap strings list.

Local Open Scope Z_scope.

(* ===================================================================== *)
(** * C strings *)
(* ===================================================================== *)

(** [char *]: a pointer to a NUL-terminated string, or NULL. *)
Definition c_str : Type := option string.

(** C truth value of a pointer: [if (p)]. *)
Definition non_null {A : Type} (p : option A) : bool :=
  match p with
  | Some _ => true
  | None => false
  end.

(** [strncmp(s, needle, strlen(needle)) == 0]: [needle] is an initial
    segment of [s]. *)
Fixpoint starts_with (needle s : string) : bool :=
  match needle with
  | EmptyString => true
  | String a needle' =>
      match s with
      | EmptyString => false
      | String b s' => if decide (a = b) then starts_with needle' s' else false
      end
  end.

(** The search of [strstr] on two valid strings: the suffix of [haystack]
    that begins at the first occurrence of [needle], or [None] (NULL) if
    there is none. An empty [needle] is found at the start. *)
Fixpoint first_occurrence (haystack needle : string) : c_str :=
  if starts_with needle haystack then Some haystack
  else
    match haystack with
    | EmptyString => None
    | String _ rest => first_occurrence rest needle
    end.

(* ===================================================================== *)
(** * stdio streams and the calls into libopenconnect *)
(* ===================================================================== *)

(** One variadic argument. *)
Inductive va_arg : Type :=
  | VaStr (s : c_str)
  | VaInt (i : Z).

Definition va_list : Type := list va_arg.

#[global] Instance va_arg_eq_dec : EqDecision va_arg.
Proof. solve_decision. Defined.

(** What one [vfprintf] call hands to the C library: the format and its
    arguments. Formatting itself is the library's work and is not modelled:
    a stream holds these records in the order of the calls. *)
Record message : Type := Message { msg_fmt : string; msg_args : va_list }.

#[global] Instance message_eq_dec : EqDecision message.
Proof. solve_decision. Defined.

(** A [FILE]: what has reached the destination, and what is still in the
    stream's buffer. *)
Record FILE_state : Type := {
  delivered : list message;
  pending : list message
}.

(** Everything written to a stream so far, in order. *)
Definition written (f : FILE_state) : list message := delivered f ++ pending f.

(** [FILE *]: the code only ever names these two. *)
Inductive FILE : Type := stdout | stderr.

(** The address of a [struct openconnect_info]: the library's handle is
    opaque to the code. *)
Definition handle : Type := nat.

(** The entry points of libopenconnect that [main] calls. *)
Inductive engine_call : Type :=
  | Call_init_ssl
  | Call_vpninfo_new
  | Call_set_protocol (vpn : handle) (protocol : string)
  | Call_parse_url (vpn : handle) (url : string)
  | Call_disable_dtls (vpn : handle)
  | Call_obtain_cookie (vpn : handle)
  | Call_vpninfo_free (vpn : handle).

#[global] Instance engine_call_eq_dec : EqDecision engine_call.
Proof. solve_decision. Defined.

Record world : Type := {
  out_stream : FILE_state;
  err_stream : FILE_state;
  engine_log : list engine_call
}.

Definition stream_of (out : FILE) (w : world) : FILE_state :=
  match out with
  | stdout => out_stream w
  | stderr => err_stream w
  end.

Definition set_stream (out : FILE) (f : FILE_state) (w : world) : world :=
  match out with
  | stdout => {| out_stream := f; err_stream := err_stream w; engine_log := engine_log w |}
  | stderr => {| out_stream := out_stream w; err_stream := f; engine_log := engine_log w |}
  end.

(* ===================================================================== *)
(** * The state-and-fault monad *)
(* ===================================================================== *)

Inductive outcome (A : Type) : Type :=
  | Done (a : A) (w : world)
  | Fault.

Arguments Done {A} a w.
Arguments Fault {A}.

Definition M (A : Type) : Type := world -> outcome A.

Definition ret {A : Type} (a : A) : M A := fun w => Done a w.

Definition bind {A B : Type} (c : M A) (k : A -> M B) : M B :=
  fun w =>
    match c w with
    | Done a w' => k a w'
    | Fault => Fault
    end.

Definition fault {A : Type} : M A := fun _ => Fault.

Notation "x <- c1 ;; c2" := (bind c1 (fun x => c2))
  (at level 100, c1 at next level, right associativity).
Notation "c1 ;; c2" := (bind c1 (fun _ => c2))
  (at level 100, right associativity).

(** [a || b] on C truth values: [b] is evaluated only when [a] is false. *)
Definition or_else (a b : M bool) : M bool :=
  x <- a ;; if x then ret true else b.

Infix "|||" := or_else (at level 50, left associativity).

(** [vfprintf(out, fmt, args)]: append to the stream's buffer. *)
Definition vfprintf (out : FILE) (fmt : string) (args : va_list) : M unit :=
  fun w =>
    let f := stream_of out w in
    Done tt (set_stream out
               {| delivered := delivered f;
                  pending := pending f ++ [Message fmt args] |} w).

(** [fflush(out)]: the buffer reaches the destination. *)
Definition fflush (out : FILE) : M unit :=
  fun w =>
    let f := stream_of out w in
    Done tt (set_stream out
               {| delivered := delivered f ++ pending f; pending := [] |} w).

Definition fprintf (out : FILE) (fmt : string) (args : va_list) : M unit :=
  vfprintf out fmt args.

Definition printf (fmt : string) (args : va_list) : M unit :=
  vfprintf stdout fmt args.

(** [strstr(haystack, needle)] with a literal [needle]. Reading through a
    NULL [haystack] is a fault. *)
Definition strstr (haystack : c_str) (needle : string) : M c_str :=
  match haystack with
  | Some h => ret (first_occurrence h needle)
  | None => fault
  end.

(** [strdup(s)]: a fresh copy of [s]; allocation is assumed to succeed. *)
Definition strdup (s : string) : M c_str := ret (Some s).

(** Record one call into the library. *)
Definition call (c : engine_call) : M unit :=
  fun w =>
    Done tt {| out_stream := out_stream w; err_stream := err_stream w;
               engine_log := engine_log w ++ [c] |}.

(* ===================================================================== *)
(** * Authentication forms *)
(* ===================================================================== *)

(** Modelled from the spec: the kinds of an AuthField (text, password,
    choice). The C constants [OC_FORM_OPT_*] live in [openconnect.h], which
    is not part of the sources. *)
Inductive field_kind : Type :=
  | kind_text
  | kind_password
  | kind_choice.

(** Modelled from the spec: [struct oc_form_opt] is declared in
    [openconnect.h], which is not part of the sources. The members read or
    written by the code are [name], [_value] and [next] (here: the position
    in the list); the kind, the label and the allowed choices follow the
    spec's AuthField. *)
Record oc_form_opt : Type := {
  kind : field_kind;
  name : c_str;
  label : c_str;
  _value : c_str;
  choices : list string
}.

(** [opt->_value = v]. *)
Definition set_value (opt : oc_form_opt) (v : c_str) : oc_form_opt :=
  {| kind := kind opt; name := name opt; label := label opt;
     _value := v; choices := choices opt |}.

(** Modelled from the spec: [struct oc_auth_form]; the code reads only the
    head of the option list, [form->opts]. *)
Record oc_auth_form : Type := { opts : list oc_form_opt }.

(** [void *]. *)
Definition void_ptr : Type := option nat.

(** The body of the [for] loop of [process_auth_form_cb]
    (test_openconnect.c, lines 12-19), on the option [opt]. *)
Definition fill_opt (opt : oc_form_opt) : M oc_form_opt :=
  if non_null (name opt) then
    printf "Field: %s\n" [VaStr (name opt)] ;;
    is_identity <- (u <- strstr (name opt) "user" ;; ret (non_null u))
               ||| (n <- strstr (name opt) "name" ;; ret (non_null n)) ;;
    if is_identity then
      v <- strdup "vicwil" ;; ret (set_value opt v)
    else
      is_secret <- (p <- strstr (name opt) "pass" ;; ret (non_null p))
               ||| (s <- strstr (name opt) "secret" ;; ret (non_null s)) ;;
      if is_secret then
        v <- strdup "test123" ;; ret (set_value opt v)
      else ret opt
  else ret opt.

(** [for (opt = form->opts; opt; opt = opt->next) ...]: the options are
    visited from the head, each one updated in place. *)
Fixpoint fill_opts (l : list oc_form_opt) : M (list oc_form_opt) :=
  match l with
  | [] => ret []
  | opt :: next =>
      opt' <- fill_opt opt ;;
      next' <- fill_opts next ;;
      ret (opt' :: next')
  end.

(** [process_auth_form_cb]: the return value and the form after the
    in-place updates. *)
Definition process_auth_form_cb (privdata : void_ptr) (form : oc_auth_form)
  : M (Z * oc_auth_form) :=
  printf "Auth form callback called\n" [] ;;
  opts' <- fill_opts (opts form) ;;
  ret (0, {| opts := opts' |}).

(* ===================================================================== *)
(** * The progress shim (akon-core/progress_shim.c) *)
(* ===================================================================== *)

(** Progress levels from openconnect.h, as [progress_shim.c] defines them. *)
Definition PRG_ERR : Z := 0.
Definition PRG_INFO : Z := 1.
Definition PRG_DEBUG : Z := 2.
Definition PRG_TRACE : Z := 3.

(** [progress_shim(privdata, level, fmt, ...)]. *)
Definition progress_shim (privdata : void_ptr) (level : Z) (fmt : string)
    (args : va_list) : M unit :=
  let out := if decide (level = PRG_ERR) then stderr else stdout in
  vfprintf out fmt args ;;
  fflush out.

(* ===================================================================== *)
(** * libopenconnect as seen from [main] *)
(* ===================================================================== *)

(** The type of the auth-form callback registered with the library; the
    form is updated in place, so the callback also yields the form as it
    leaves it. *)
Definition auth_form_cb : Type := void_ptr -> oc_auth_form -> M (Z * oc_auth_form).

(** What the library does inside [openconnect_obtain_cookie]: it either
    returns its terminal signal, or presents a form to the callback and
    goes on from the callback's return value and the filled form. *)
Inductive negotiation : Type :=
  | Terminal (signal : Z)
  | Present (form : oc_auth_form) (resume : Z -> oc_auth_form -> negotiation).

(** The library is external: an [engine] fixes what each entry point
    answers. [None] for [vpninfo_new_result] is the NULL handle. *)
Record engine : Type := {
  init_ssl_result : Z;
  vpninfo_new_result : option handle;
  set_protocol_result : handle -> string -> Z;
  parse_url_result : handle -> string -> Z;
  obtain_cookie_script : handle -> negotiation
}.

(** [struct openconnect_info]: the handle with what was registered at its
    creation. *)
Record openconnect_info : Type := {
  vpn_handle : handle;
  vpn_process_auth_form : auth_form_cb;
  vpn_cbdata : void_ptr
}.

Definition openconnect_init_ssl (e : engine) : M Z :=
  call Call_init_ssl ;; ret (init_ssl_result e).

Definition openconnect_vpninfo_new (e : engine) (useragent : c_str)
    (validate_peer_cert write_new_config : void_ptr)
    (process_auth_form : auth_form_cb) (progress privdata : void_ptr)
  : M (option openconnect_info) :=
  call Call_vpninfo_new ;;
  ret (match vpninfo_new_result e with
       | Some h => Some {| vpn_handle := h;
                           vpn_process_auth_form := process_auth_form;
                           vpn_cbdata := privdata |}
       | None => None
       end).

Definition openconnect_set_protocol (e : engine) (vpn : openconnect_info)
    (protocol : string) : M Z :=
  call (Call_set_protocol (vpn_handle vpn) protocol) ;;
  ret (set_protocol_result e (vpn_handle vpn) protocol).

Definition openconnect_parse_url (e : engine) (vpn : openconnect_info)
    (url : string) : M Z :=
  call (Call_parse_url (vpn_handle vpn) url) ;;
  ret (parse_url_result e (vpn_handle vpn) url).

Definition openconnect_disable_dtls (e : engine) (vpn : openconnect_info) : M unit :=
  call (Call_disable_dtls (vpn_handle vpn)).

(** The library drives the registered callback through the forms it
    presents. *)
Fixpoint negotiate (vpn : openconnect_info) (n : negotiation) : M Z :=
  match n with
  | Terminal signal => ret signal
  | Present form resume =>
      r <- vpn_process_auth_form vpn (vpn_cbdata vpn) form ;;
      negotiate vpn (resume (fst r) (snd r))
  end.

Definition openconnect_obtain_cookie (e : engine) (vpn : openconnect_info) : M Z :=
  call (Call_obtain_cookie (vpn_handle vpn)) ;;
  negotiate vpn (obtain_cookie_script e (vpn_handle vpn)).

Definition openconnect_vpninfo_free (e : engine) (vpn : openconnect_info) : M unit :=
  call (Call_vpninfo_free (vpn_handle vpn)).

(* ===================================================================== *)
(** * The driver (test_openconnect.c, [main]) *)
(* ===================================================================== *)

Definition main (e : engine) : M Z :=
  printf "Initializing OpenConnect...\n" [] ;;
  ssl <- openconnect_init_ssl e ;;
  if decide (ssl <> 0) then
    fprintf stderr "Failed to init SSL\n" [] ;;
    ret 1
  else
    printf "Creating vpninfo...\n" [] ;;
    vpn <- openconnect_vpninfo_new e None None None process_auth_form_cb None None ;;
    match vpn with
    | None =>
        fprintf stderr "Failed to create vpninfo\n" [] ;;
        ret 1
    | Some vpn =>
        printf "Setting protocol to f5...\n" [] ;;
        proto <- openconnect_set_protocol e vpn "f5" ;;
        if decide (proto <> 0) then
          fprintf stderr "Failed to set protocol\n" [] ;;
          ret 1
        else
          printf "Parsing URL...\n" [] ;;
          url <- openconnect_parse_url e vpn "https://access.etraveligroup.com" ;;
          if decide (url <> 0) then
            fprintf stderr "Failed to parse URL\n" [] ;;
            ret 1
          else
            printf "Disabling DTLS...\n" [] ;;
            openconnect_disable_dtls e vpn ;;
            printf "Obtaining cookie (this will make HTTPS requests)...\n" [] ;;
            r <- openconnect_obtain_cookie e vpn ;;
            printf "openconnect_obtain_cookie returned: %d\n" [VaInt r] ;;
            (if decide (r <> 0) then
               fprintf stderr "Authentication failed\n" []
             else
               printf "Authentication successful!\n" []) ;;
            openconnect_vpninfo_free e vpn ;;
            ret r
    end.

(* ===================================================================== *)
(** * The specification's vocabulary *)
(* ===================================================================== *)

(** [pat] occurs in [s] as a substring. *)
Definition contains (s pat : string) : Prop :=
  exists pre post : string, s = pre +:+ pat +:+ post.

(** The identity and the secret that the static provider hands out. *)
Definition identity_value : string := "vicwil".
Definition secret_value : string := "test123".

(** The static map provider in the spec's words: a substring match for
    "user" or "name" gives the identity value, else a substring match for
    "pass" or "secret" gives the secret value, else there is no value. The
    substring match is the search that [strstr] performs. *)
Definition static_map_provider (field_name : string) : option string :=
  if non_null (first_occurrence field_name "user")
     || non_null (first_occurrence field_name "name")
  then Some identity_value
  else if non_null (first_occurrence field_name "pass")
          || non_null (first_occurrence field_name "secret")
  then Some secret_value
  else None.

(** What the provider supplies for a field: nothing for a field without a
    name. *)
Definition supplied (opt : oc_form_opt) : option string :=
  n ← name opt; static_map_provider n.

(** [resolve] in the spec's words: the mapping from field name to provided
    value, over the named fields for which the provider has a value. *)
Definition resolve (form : oc_auth_form) : gmap string string :=
  list_to_map
    (omap (fun opt => n ← name opt; v ← static_map_provider n; Some (n, v))
          (opts form)).

(** Attaching a mapping to a field: a named field bound in [m] receives its
    value, any other field is left as it is. *)
Definition attach (m : gmap string string) (opt : oc_form_opt) : oc_form_opt :=
  match name opt ≫= (m !!.) with
  | Some v => set_value opt (Some v)
  | None => opt
  end.

(** The field as the callback leaves it: the supplied value attached, or
    the field untouched when nothing is supplied. *)
Definition filled (opt : oc_form_opt) : oc_form_opt :=
  match supplied opt with
  | Some v => set_value opt (Some v)
  | None => opt
  end.

(** The line that the callback prints for a named field. *)
Definition field_line (field_name : string) : message :=
  Message "Field: %s\n" [VaStr (Some field_name)].

(** The names of the named fields, in the order of the form. *)
Definition field_names (l : list oc_form_opt) : list string := omap name l.

(** The first line that the callback prints. *)
Definition callback_banner : message := Message "Auth form callback called\n" [].

(** [ms] is appended to the buffer of [out]. *)
Definition emit (out : FILE) (ms : list message) (w : world) : world :=
  set_stream out
    {| delivered := delivered (stream_of out w);
       pending := pending (stream_of out w) ++ ms |} w.

Arguments emit : simpl never.

(** [cs] is appended to the log of library calls. *)
Definition logged (cs : list engine_call) (w : world) : world :=
  {| out_stream := out_stream w; err_stream := err_stream w;
     engine_log := engine_log w ++ cs |}.

(** The session that [main] creates on the handle [h]: its own callback
    and a NULL [privdata]. *)
Definition session (h : handle) : openconnect_info :=
  {| vpn_handle := h; vpn_process_auth_form := process_auth_form_cb;
     vpn_cbdata := None |}.

(** The URL that [main] connects to. *)
Definition target_url : string := "https://access.etraveligroup.com".

(** The terminal signal of a negotiation driven by [process_auth_form_cb],
    which answers every form with 0 and the [filled] fields. *)
Fixpoint negotiation_signal (n : negotiation) : Z :=
  match n with
  | Terminal signal => signal
  | Present form resume =>
      negotiation_signal (resume 0 {| opts := filled <$> opts form |})
  end.

(** What the callback prints in the course of that negotiation. *)
Fixpoint negotiation_output (n : negotiation) : list message :=
  match n with
  | Terminal _ => []
  | Present form resume =>
      (callback_banner :: (field_line <$> field_names (opts form))) ++
      negotiation_output (resume 0 {| opts := filled <$> opts form |})
  end.

(** The world in which [main] calls [openconnect_obtain_cookie], when every
    earlier step succeeded on the handle [h]. *)
Definition configured (h : handle) (w : world) : world :=
  emit stdout
    [ Message "Initializing OpenConnect...\n" [];
      Message "Creating vpninfo...\n" [];
      Message "Setting protocol to f5...\n" [];
      Message "Parsing URL...\n" [];
      Message "Disabling DTLS...\n" [];
      Message "Obtaining cookie (this will make HTTPS requests)...\n" [] ]
    (logged [ Call_init_ssl; Call_vpninfo_new; Call_set_protocol h "f5";
              Call_parse_url h target_url; Call_disable_dtls h ] w).

(** The two ways in which [main] reports the end of a negotiation. *)
Inductive report : Type :=
  | Reported_success
  | Reported_failure.

(** The classification of a terminal signal: 0 is success, anything else a
    failure. *)
Definition classify (signal : Z) : report :=
  if decide (signal = 0) then Reported_success else Reported_failure.

(** Where and how each report is printed. *)
Definition report_stream (r : report) : FILE :=
  match r with
  | Reported_success => stdout
  | Reported_failure => stderr
  end.

Definition report_message (r : report) : message :=
  match r with
  | Reported_success => Message "Authentication successful!\n" []
  | Reported_failure => Message "Authentication failed\n" []
  end.

(** How often the session [h] was released. *)
Definition releases (h : handle) (log : list engine_call) : nat :=
  length (filter (fun c => c = Call_vpninfo_free h) log).

(** An empty world: nothing written, nothing called. *)
Definition empty_FILE : FILE_state := {| delivered := []; pending := [] |}.
Definition empty_world : world :=
  {| out_stream := empty_FILE; err_stream := empty_FILE; engine_log := [] |}.

(* ===================================================================== *)
(** * Sequences of calls *)
(* ===================================================================== *)

(** One progress report of the library: level, format and arguments. *)
Definition emission : Type := Z * string * va_list.

Definition emission_level (em : emission) : Z := em.1.1.

Definition emission_message (em : emission) : message :=
  Message em.1.2 em.2.

(** The library reporting through [progress_shim], one call after the
    other. *)
Fixpoint progress_shim_all (privdata : void_ptr) (ems : list emission) : M unit :=
  match ems with
  | [] => ret tt
  | em :: rest =>
      progress_shim privdata (emission_level em) em.1.2 em.2 ;;
      progress_shim_all privdata rest
  end.

(** The library calls of a run of [main] that goes all the way, on the
    handle [h]. *)
Definition full_calls (h : handle) : list engine_call :=
  [ Call_init_ssl; Call_vpninfo_new; Call_set_protocol h "f5";
    Call_parse_url h target_url; Call_disable_dtls h;
    Call_obtain_cookie h; Call_vpninfo_free h ].

(* ===================================================================== *)
(** * Substring search *)
(* ===================================================================== *)

Section Substring.

Implicit Types s pat pre post : string.

Lemma starts_with_append pat post : starts_with pat (pat +:+ post) = true.
Proof.
  induction pat as [|a pat IH]; simpl; [done|].
  by rewrite decide_True.
Qed.

Lemma starts_with_inv pat s :
  starts_with pat s = true -> exists post, s = pat +:+ post.
Proof.
  revert s. induction pat as [|a pat IH]; intros s H; simpl in *.
  - by exists s.
  - destruct s as [|b s]; [done|].
    case_decide; [|done]. subst b.
    destruct (IH _ H) as [post ->]. by exists post.
Qed.

Lemma first_occurrence_found s pat r :
  first_occurrence s pat = Some r ->
  exists pre, s = pre +:+ r /\ starts_with pat r = true.
Proof.
  revert r. induction s as [|c s IH]; intros r; simpl.
  - destruct (starts_with pat "") eqn:E; [|done].
    intros [= <-]. by exists "".
  - destruct (starts_with pat (String c s)) eqn:E.
    + intros [= <-]. by exists "".
    + intros H. destruct (IH _ H) as (pre & -> & Hp).
      by exists (String c pre).
Qed.

Lemma first_occurrence_append pre pat post :
  is_Some (first_occurrence (pre +:+ pat +:+ post) pat).
Proof.
  induction pre as [|c pre IH]; simpl.
  - destruct pat as [|a pat]; simpl; [by destruct post; eauto|].
    rewrite decide_True by done. rewrite starts_with_append. eauto.
  - destruct (starts_with pat _); eauto.
Qed.

(** [strstr] finds something exactly when the needle occurs. *)
Lemma first_occurrence_contains s pat :
  non_null (first_occurrence s pat) = true <-> contains s pat.
Proof.
  split.
  - destruct (first_occurrence s pat) as [r|] eqn:E; [|done]. intros _.
    destruct (first_occurrence_found _ _ _ E) as (pre & -> & Hr).
    destruct (starts_with_inv _ _ Hr) as [post ->]. by exists pre, post.
  - intros (pre & post & ->).
    by destruct (first_occurrence_append pre pat post) as [r ->].
Qed.

Lemma first_occurrence_absent s pat :
  non_null (first_occurrence s pat) = false <-> ~ contains s pat.
Proof.
  rewrite <- first_occurrence_contains.
  destruct (non_null _); naive_solver.
Qed.

End Substring.

(* ===================================================================== *)
(** * Running the monad *)
(* ===================================================================== *)

Section Worlds.

Implicit Types (w : world) (out : FILE) (ms : list message).

Lemma emit_nil out w : emit out [] w = w.
Proof.
  destruct w as [[d1 p1] [d2 p2] lg], out; unfold emit; simpl;
    by rewrite app_nil_r.
Qed.

Lemma emit_emit out ms1 ms2 w :
  emit out ms2 (emit out ms1 w) = emit out (ms1 ++ ms2) w.
Proof. destruct out; unfold emit; simpl; by rewrite app_assoc. Qed.

Lemma vfprintf_run out fmt args w :
  vfprintf out fmt args w = Done tt (emit out [Message fmt args] w).
Proof. reflexivity. Qed.

Lemma written_emit_same out ms w :
  written (stream_of out (emit out ms w)) = written (stream_of out w) ++ ms.
Proof. destruct out; unfold written, emit; simpl; by rewrite app_assoc. Qed.

Lemma engine_log_emit out ms w : engine_log (emit out ms w) = engine_log w.
Proof. by destruct out. Qed.

End Worlds.

(* ===================================================================== *)
(** * The auth-form callback *)
(* ===================================================================== *)

Section Callback.

Implicit Types (opt : oc_form_opt) (l : list oc_form_opt) (w : world).

(** The provider decides by substring alone. *)
Lemma static_map_provider_identity n :
  static_map_provider n = Some identity_value <->
  contains n "user" \/ contains n "name".
Proof.
  unfold static_map_provider.
  rewrite <- !first_occurrence_contains.
  repeat destruct (non_null (first_occurrence n _)); simpl;
    unfold identity_value, secret_value; intuition congruence.
Qed.

Lemma static_map_provider_secret n :
  static_map_provider n = Some secret_value <->
  ~ (contains n "user" \/ contains n "name") /\
  (contains n "pass" \/ contains n "secret").
Proof.
  unfold static_map_provider.
  rewrite <- !first_occurrence_contains.
  repeat destruct (non_null (first_occurrence n _)); simpl;
    unfold identity_value, secret_value; intuition congruence.
Qed.

Lemma static_map_provider_none n :
  static_map_provider n = None <->
  ~ (contains n "user" \/ contains n "name") /\
  ~ (contains n "pass" \/ contains n "secret").
Proof.
  unfold static_map_provider.
  rewrite <- !first_occurrence_contains.
  repeat destruct (non_null (first_occurrence n _)); simpl;
    intuition congruence.
Qed.

Lemma static_map_provider_some n :
  is_Some (static_map_provider n) <->
  contains n "user" \/ contains n "name" \/
  contains n "pass" \/ contains n "secret".
Proof.
  unfold static_map_provider.
  rewrite <- !first_occurrence_contains.
  repeat destruct (non_null (first_occurrence n _)); simpl;
    rewrite ?is_Some_alt; intuition congruence.
Qed.

(** The guard [if (opt->name)] matters: searching a NULL name faults. *)
Lemma strstr_null_faults needle w : strstr None needle w = Fault.
Proof. reflexivity. Qed.

(** One turn of the loop: the field is [filled], and a named field costs
    one line on the standard output. *)
Lemma fill_opt_run opt w :
  fill_opt opt w =
  Done (filled opt) (emit stdout (field_line <$> field_names [opt]) w).
Proof.
  unfold fill_opt, filled, supplied, field_names.
  destruct opt as [k [n|] lb v ch]; simpl.
  - unfold static_map_provider, bind, or_else, bind, printf, strstr, strdup, ret.
    rewrite vfprintf_run. simpl.
    repeat (destruct (non_null (first_occurrence n _)); simpl); reflexivity.
  - by rewrite emit_nil.
Qed.

Lemma fill_opts_run l w :
  fill_opts l w =
  Done (filled <$> l) (emit stdout (field_line <$> field_names l) w).
Proof.
  revert w. induction l as [|opt l IH]; intros w; simpl.
  - by rewrite emit_nil.
  - unfold bind. rewrite fill_opt_run, IH. unfold ret. f_equal.
    rewrite emit_emit. f_equal. unfold field_names. simpl.
    destruct (name opt); simpl; by rewrite ?app_nil_r.
Qed.

(** The callback as a whole. *)
Lemma process_auth_form_cb_run privdata form w :
  process_auth_form_cb privdata form w =
  Done (0, {| opts := filled <$> opts form |})
       (emit stdout (callback_banner :: (field_line <$> field_names (opts form))) w).
Proof.
  unfold process_auth_form_cb, bind, printf.
  rewrite vfprintf_run, fill_opts_run. unfold ret.
  by rewrite emit_emit.
Qed.

Lemma filled_untouched opt :
  name (filled opt) = name opt /\ kind (filled opt) = kind opt /\
  label (filled opt) = label opt /\ choices (filled opt) = choices opt.
Proof. unfold filled. by destruct (supplied opt). Qed.

Lemma filled_value opt :
  _value (filled opt) =
  match supplied opt with Some v => Some v | None => _value opt end.
Proof. unfold filled. by destruct (supplied opt). Qed.

End Callback.

(* ===================================================================== *)
(** * Properties of the auth-form callback *)
(* ===================================================================== *)

(** The callback and the search on concrete inputs. *)
Example first_occurrence_username :
  first_occurrence "username" "name" = Some "name" /\
  first_occurrence "username" "user" = Some "username" /\
  first_occurrence "password" "user" = None /\
  first_occurrence "client_secret" "secret" = Some "secret" /\
  first_occurrence "" "pass" = None.
Proof. repeat split. Qed.

Example process_auth_form_cb_on_login_form :
  process_auth_form_cb None
    {| opts := [ {| kind := kind_text; name := Some "username";
                    label := Some "Username:"; _value := None; choices := [] |};
                 {| kind := kind_text; name := None;
                    label := None; _value := None; choices := [] |};
                 {| kind := kind_password; name := Some "password";
                    label := Some "Password:"; _value := None; choices := [] |};
                 {| kind := kind_text; name := Some "domain";
                    label := None; _value := Some "corp"; choices := [] |} ] |}
    empty_world =
  Done (0,
        {| opts := [ {| kind := kind_text; name := Some "username";
                        label := Some "Username:"; _value := Some "vicwil";
                        choices := [] |};
                     {| kind := kind_text; name := None;
                        label := None; _value := None; choices := [] |};
                     {| kind := kind_password; name := Some "password";
                        label := Some "Password:"; _value := Some "test123";
                        choices := [] |};
                     {| kind := kind_text; name := Some "domain";
                        label := None; _value := Some "corp";
                        choices := [] |} ] |})
       {| out_stream :=
            {| delivered := [];
               pending := [ Message "Auth form callback called\n" [];
                            Message "Field: %s\n" [VaStr (Some "username")];
                            Message "Field: %s\n" [VaStr (Some "password")];
                            Message "Field: %s\n" [VaStr (Some "domain")] ] |};
          err_stream := empty_FILE;
          engine_log := [] |}.
Proof. reflexivity. Qed.

(** C9. For every form whatsoever, also one in which no field name matches
    a pattern and nothing is assigned, the auth-form callback runs to its
    end and returns 0; no form makes it return the nonzero abort code. *)
Theorem process_auth_form_cb_returns_zero
    (privdata : void_ptr) (form : oc_auth_form) (w : world) :
  exists (form' : oc_auth_form) (w' : world),
    process_auth_form_cb privdata form w = Done (0, form') w'.
Proof. rewrite process_auth_form_cb_run. eauto. Qed.

(** C2. The callback visits the fields in their given order (one output
    line per named field, in form order; every field keeps its position and
    everything but its value). A named field receives the identity value
    when its name contains "user" or "name", the secret value when it does
    not but contains "pass" or "secret", and keeps its value otherwise; for
    a field that arrives unset these are equivalences, and the field stays
    unset exactly when no pattern matches. *)
Theorem process_auth_form_cb_static_map
    (privdata : void_ptr) (form : oc_auth_form) (w : world)
    (i : nat) (opt : oc_form_opt) :
  opts form !! i = Some opt ->
  exists (form' : oc_auth_form) (w' : world) (opt' : oc_form_opt),
    process_auth_form_cb privdata form w = Done (0, form') w' /\
    length (opts form') = length (opts form) /\
    written (out_stream w') =
      written (out_stream w) ++
      callback_banner :: (field_line <$> field_names (opts form)) /\
    opts form' !! i = Some opt' /\
    name opt' = name opt /\ kind opt' = kind opt /\
    label opt' = label opt /\ choices opt' = choices opt /\
    forall n : string, name opt = Some n ->
      let identity := contains n "user" \/ contains n "name" in
      let secret := contains n "pass" \/ contains n "secret" in
      (identity -> _value opt' = Some "vicwil") /\
      (~ identity -> secret -> _value opt' = Some "test123") /\
      (~ identity -> ~ secret -> _value opt' = _value opt) /\
      (_value opt = None ->
         (_value opt' = Some "vicwil" <-> identity) /\
         (_value opt' = Some "test123" <-> ~ identity /\ secret) /\
         (_value opt' = None <-> ~ identity /\ ~ secret)).
Proof.
  intros Hi.
  exists {| opts := filled <$> opts form |},
    (emit stdout (callback_banner :: (field_line <$> field_names (opts form))) w),
    (filled opt).
  split; [apply process_auth_form_cb_run|]. simpl.
  split; [apply length_fmap|].
  split; [apply (written_emit_same stdout)|].
  split; [by rewrite list_lookup_fmap, Hi|].
  destruct (filled_untouched opt) as (? & ? & ? & ?).
  do 4 (split; [done|]).
  intros n Hn. cbv zeta.
  set (identity := contains n "user" \/ contains n "name").
  set (secret := contains n "pass" \/ contains n "secret").
  rewrite filled_value. unfold supplied. rewrite Hn. simpl.
  pose proof (static_map_provider_identity n) as Hid.
  pose proof (static_map_provider_secret n) as Hsec.
  pose proof (static_map_provider_none n) as Hnone.
  fold identity secret in Hid, Hsec, Hnone.
  unfold identity_value, secret_value in *.
  destruct (static_map_provider n) as [v|] eqn:E.
  - assert (v = "vicwil" \/ v = "test123") as Hv.
    { revert E. unfold static_map_provider, identity_value, secret_value.
      repeat case_match; intros [= <-]; auto. }
    destruct Hv as [-> | ->].
    + assert identity by tauto.
      repeat split; try done; try tauto; intros; try tauto; try discriminate.
    + assert (~ identity /\ secret) as [? ?] by tauto.
      repeat split; try done; try tauto; intros; try tauto; try discriminate.
  - assert (~ identity /\ ~ secret) as [? ?] by tauto.
    repeat split; try done; try tauto; intros; try tauto; try congruence.
Qed.

Lemma process_auth_form_cb_static_map_witness :
  exists (form' : oc_auth_form) (w' : world) (opt' : oc_form_opt),
    process_auth_form_cb None
      {| opts := [ {| kind := kind_text; name := Some "username";
                      label := None; _value := None; choices := [] |};
                   {| kind := kind_password; name := Some "password";
                      label := None; _value := None; choices := [] |} ] |}
      empty_world = Done (0, form') w' /\
    opts form' !! 1%nat = Some opt' /\
    _value opt' = Some "test123".
Proof.
  destruct (process_auth_form_cb_static_map None
              {| opts := [ {| kind := kind_text; name := Some "username";
                              label := None; _value := None; choices := [] |};
                           {| kind := kind_password; name := Some "password";
                              label := None; _value := None; choices := [] |} ] |}
              empty_world 1
              {| kind := kind_password; name := Some "password";
                 label := None; _value := None; choices := [] |}
              eq_refl)
    as (form' & w' & opt' & Hrun & _ & _ & Hopt & _ & _ & _ & _ & Hval).
  exists form', w', opt'. split; [exact Hrun|]. split; [exact Hopt|].
  destruct (Hval "password" eq_refl) as (_ & _ & _ & Hiff).
  destruct (Hiff eq_refl) as (_ & Hsec & _).
  apply Hsec. split.
  - intros [Hc | Hc];
      apply first_occurrence_contains in Hc; vm_compute in Hc; discriminate.
  - left. by exists "", "word".
Defined.

(** C10. A field whose name is NULL is skipped. A search in its name would
    fault, yet the turn of the loop on it ends normally with the field and
    the world as they were: nothing is searched, printed or assigned. In any
    form the callback leaves such a field exactly as it was (an unset value
    stays unset) and treats the fields before and after it as if it were
    not there. *)
Theorem process_auth_form_cb_skips_null_name
    (privdata : void_ptr) (before after : list oc_form_opt)
    (opt : oc_form_opt) (w : world) :
  name opt = None ->
  (forall needle : string, strstr (name opt) needle w = Fault) /\
  fill_opt opt w = Done opt w /\
  exists (before' after' : list oc_form_opt) (w' : world),
    length before' = length before /\
    process_auth_form_cb privdata {| opts := before ++ after |} w =
      Done (0, {| opts := before' ++ after' |}) w' /\
    process_auth_form_cb privdata {| opts := before ++ opt :: after |} w =
      Done (0, {| opts := before' ++ opt :: after' |}) w'.
Proof.
  intros Hn.
  split. { intros needle. rewrite Hn. apply strstr_null_faults. }
  split. { unfold fill_opt. by rewrite Hn. }
  exists (filled <$> before), (filled <$> after),
    (emit stdout
       (callback_banner :: (field_line <$> field_names (before ++ after))) w).
  split; [apply length_fmap|].
  rewrite !process_auth_form_cb_run. simpl.
  split; [by rewrite fmap_app|].
  rewrite fmap_app, fmap_cons.
  assert (filled opt = opt) as -> by (unfold filled, supplied; by rewrite Hn).
  do 2 f_equal. unfold field_names.
  rewrite !omap_app. simpl. by rewrite Hn.
Qed.

Lemma process_auth_form_cb_skips_null_name_witness :
  fill_opt {| kind := kind_text; name := None; label := None;
              _value := None; choices := [] |} empty_world =
    Done {| kind := kind_text; name := None; label := None;
            _value := None; choices := [] |} empty_world /\
  exists (before' after' : list oc_form_opt) (w' : world),
    length before' = 0%nat /\
    process_auth_form_cb None
      {| opts := [] ++ [ {| kind := kind_text; name := Some "user";
                            label := None; _value := None; choices := [] |} ] |}
      empty_world = Done (0, {| opts := before' ++ after' |}) w' /\
    process_auth_form_cb None
      {| opts := [] ++ {| kind := kind_text; name := None; label := None;
                          _value := None; choices := [] |}
                    :: [ {| kind := kind_text; name := Some "user";
                            label := None; _value := None; choices := [] |} ] |}
      empty_world =
      Done (0, {| opts := before' ++ {| kind := kind_text; name := None;
                                        label := None; _value := None;
                                        choices := [] |} :: after' |}) w'.
Proof.
  apply (process_auth_form_cb_skips_null_name None []
           [ {| kind := kind_text; name := Some "user";
                label := None; _value := None; choices := [] |} ]
           {| kind := kind_text; name := None; label := None;
              _value := None; choices := [] |} empty_world).
  reflexivity.
Defined.

(* ===================================================================== *)
(** * The callback against [resolve] *)
(* ===================================================================== *)

Section Resolve.

Implicit Types (opt : oc_form_opt) (form : oc_auth_form) (n v : string).

(** A name is bound in the mapping exactly when it names a field of the
    form and the provider has a value for it; the binding is that value. *)
Lemma resolve_lookup form n v :
  resolve form !! n = Some v <->
  Some n ∈ name <$> opts form /\ static_map_provider n = Some v.
Proof.
  unfold resolve. destruct form as [l]. simpl.
  induction l as [|opt l IH]; simpl.
  - rewrite lookup_empty. split; [done|]. intros [H _]. by apply elem_of_nil in H.
  - rewrite elem_of_cons.
    destruct (name opt) as [m|] eqn:Hm; simpl.
    + destruct (static_map_provider m) as [u|] eqn:Hu; simpl.
      * destruct (decide (m = n)) as [->|Hne].
        -- rewrite lookup_insert_eq. split.
           ++ intros [= <-]. auto.
           ++ intros [_ H]. congruence.
        -- rewrite lookup_insert_ne by done. rewrite IH.
           split; [tauto|]. intros [[H|H] ?]; [congruence|done].
      * rewrite IH. split; [tauto|].
        intros [[H|H] ?]; [|done]. congruence.
    + rewrite IH. split; [tauto|]. intros [[H|H] ?]; [done|done].
Qed.

Lemma attach_resolve form opt :
  opt ∈ opts form -> attach (resolve form) opt = filled opt.
Proof.
  intros Hin. unfold attach, filled, supplied.
  destruct (name opt) as [n|] eqn:Hn; simpl; [|done].
  assert (Some n ∈ name <$> opts form) as Hname.
  { rewrite <- Hn. by apply list_elem_of_fmap_2. }
  destruct (static_map_provider n) as [v|] eqn:Hv.
  - assert (resolve form !! n = Some v) as -> by (by apply resolve_lookup).
    done.
  - destruct (resolve form !! n) as [u|] eqn:Hu; [|done].
    apply resolve_lookup in Hu as [_ Hu]. congruence.
Qed.

Lemma attach_resolve_all form :
  attach (resolve form) <$> opts form = filled <$> opts form.
Proof.
  apply list_fmap_ext. intros i opt Hi.
  apply attach_resolve. by eapply list_elem_of_lookup_2.
Qed.

End Resolve.

(** C6. For a form with any number of fields the callback returns 0, and
    what it attaches is the mapping [resolve form]: the fields it leaves
    behind are the given ones with that mapping attached. The mapping binds
    exactly the names of the form for which the provider has a value, that
    is those containing "user", "name", "pass" or "secret"; a field that
    arrives unset leaves with a value exactly when its name is bound. A form
    without fields gives the empty mapping, is returned as it came, and is
    still a success. *)
Theorem process_auth_form_cb_resolves
    (privdata : void_ptr) (form : oc_auth_form) (w : world) :
  exists (form' : oc_auth_form) (w' : world),
    process_auth_form_cb privdata form w = Done (0, form') w' /\
    opts form' = attach (resolve form) <$> opts form /\
    (forall n : string,
       n ∈ dom (resolve form) <->
       Some n ∈ name <$> opts form /\
       (contains n "user" \/ contains n "name" \/
        contains n "pass" \/ contains n "secret")) /\
    (forall n v : string,
       resolve form !! n = Some v -> static_map_provider n = Some v) /\
    (forall (i : nat) (opt : oc_form_opt),
       opts form !! i = Some opt -> _value opt = None ->
       exists opt' : oc_form_opt,
         opts form' !! i = Some opt' /\
         (is_Some (_value opt') <->
          exists n : string, name opt = Some n /\ n ∈ dom (resolve form))) /\
    (opts form = [] -> resolve form = ∅ /\ form' = form).
Proof.
  exists {| opts := filled <$> opts form |},
    (emit stdout (callback_banner :: (field_line <$> field_names (opts form))) w).
  split; [apply process_auth_form_cb_run|]. simpl.
  split; [by rewrite attach_resolve_all|].
  assert (forall n, n ∈ dom (resolve form) <->
            Some n ∈ name <$> opts form /\ is_Some (static_map_provider n)) as Hdom.
  { intros n. rewrite elem_of_dom. split.
    - intros [v Hv]. apply resolve_lookup in Hv as [? ?]. eauto.
    - intros [? [v Hv]]. exists v. by apply resolve_lookup. }
  split. { intros n. rewrite Hdom. by rewrite static_map_provider_some. }
  split. { intros n v H. by apply resolve_lookup in H as [_ ?]. }
  split.
  - intros i opt Hi Hunset. exists (filled opt).
    split; [by rewrite list_lookup_fmap, Hi|].
    rewrite filled_value, Hunset. unfold supplied.
    assert (opt ∈ opts form) as Hin by (by eapply list_elem_of_lookup_2).
    destruct (name opt) as [n|] eqn:Hn; simpl.
    + split.
      * intros Hsome. exists n. split; [done|]. apply Hdom. split.
        -- rewrite <- Hn. by apply list_elem_of_fmap_2.
        -- by destruct (static_map_provider n); [eauto|destruct Hsome].
      * intros (m & [= <-] & Hm). apply Hdom in Hm as [_ [v ->]]. eauto.
    + split; [by intros [? ?]|]. by intros (m & ? & _).
  - intros Hnil. destruct form as [l]. simpl in *. subst l. done.
Qed.

Lemma process_auth_form_cb_resolves_witness :
  exists (form' : oc_auth_form) (w' : world),
    process_auth_form_cb None {| opts := [] |} empty_world = Done (0, form') w' /\
    resolve {| opts := [] |} = ∅ /\
    form' = {| opts := [] |}.
Proof.
  destruct (process_auth_form_cb_resolves None {| opts := [] |} empty_world)
    as (form' & w' & Hrun & _ & _ & _ & _ & Hempty).
  exists form', w'. split; [exact Hrun|]. exact (Hempty eq_refl).
Defined.

(** C1 (counterexample). A choice field that allows "push" and "sms" and
    whose name makes the provider supply "test123": the callback returns 0
    with the out-of-set value attached. *)
Lemma choice_out_of_set_value_accepted :
  let field := {| kind := kind_choice; name := Some "passcode_method";
                  label := None; _value := None;
                  choices := ["push"; "sms"] |} in
  supplied field = Some "test123" /\
  ("test123" ∉ choices field) /\
  process_auth_form_cb None {| opts := [field] |} empty_world =
    Done (0, {| opts := [set_value field (Some "test123")] |})
         (emit stdout [callback_banner; field_line "passcode_method"]
               empty_world).
Proof.
  cbv zeta. split; [reflexivity|]. split; [|reflexivity].
  simpl. intros H.
  repeat (apply elem_of_cons in H as [H|H]; [discriminate H|]).
  by apply elem_of_nil in H.
Qed.

(** C1 (amended). For a form with a choice field for which the value that
    the provider would supply is not one of the field's declared allowed
    values, the callback does not abort: it returns 0, and the field leaves
    with that out-of-set value attached, its kind and its allowed values as
    they were. *)
Theorem process_auth_form_cb_accepts_out_of_set_choice
    (privdata : void_ptr) (form : oc_auth_form) (w : world)
    (i : nat) (opt : oc_form_opt) (v : string) :
  opts form !! i = Some opt ->
  kind opt = kind_choice ->
  supplied opt = Some v ->
  v ∉ choices opt ->
  exists (form' : oc_auth_form) (w' : world) (opt' : oc_form_opt),
    process_auth_form_cb privdata form w = Done (0, form') w' /\
    opts form' !! i = Some opt' /\
    kind opt' = kind_choice /\
    choices opt' = choices opt /\
    _value opt' = Some v /\
    v ∉ choices opt'.
Proof.
  intros Hi Hk Hs Hout.
  exists {| opts := filled <$> opts form |},
    (emit stdout (callback_banner :: (field_line <$> field_names (opts form))) w),
    (filled opt).
  split; [apply process_auth_form_cb_run|]. simpl.
  split; [by rewrite list_lookup_fmap, Hi|].
  destruct (filled_untouched opt) as (_ & -> & _ & ->).
  rewrite filled_value, Hs. done.
Qed.

Lemma process_auth_form_cb_accepts_out_of_set_choice_witness :
  exists (form' : oc_auth_form) (w' : world) (opt' : oc_form_opt),
    process_auth_form_cb None
      {| opts := [ {| kind := kind_text; name := Some "username";
                      label := None; _value := None; choices := [] |};
                   {| kind := kind_choice; name := Some "passcode_method";
                      label := None; _value := None;
                      choices := ["push"; "sms"] |} ] |}
      empty_world = Done (0, form') w' /\
    opts form' !! 1%nat = Some opt' /\
    kind opt' = kind_choice /\
    choices opt' = ["push"; "sms"] /\
    _value opt' = Some "test123" /\
    "test123" ∉ choices opt'.
Proof.
  apply (process_auth_form_cb_accepts_out_of_set_choice None
           {| opts := [ {| kind := kind_text; name := Some "username";
                           label := None; _value := None; choices := [] |};
                        {| kind := kind_choice; name := Some "passcode_method";
                           label := None; _value := None;
                           choices := ["push"; "sms"] |} ] |}
           empty_world 1
           {| kind := kind_choice; name := Some "passcode_method";
              label := None; _value := None; choices := ["push"; "sms"] |}
           "test123").
  - reflexivity.
  - reflexivity.
  - reflexivity.
  - simpl. intros H.
    repeat (apply elem_of_cons in H as [H|H]; [discriminate H|]).
    by apply elem_of_nil in H.
Defined.

(* ===================================================================== *)
(** * The progress shim *)
(* ===================================================================== *)

(** A stream that has received a message is longer than before. *)
Ltac stream_grew :=
  match goal with
  | H : @eq FILE_state _ _ |- _ =>
      apply (f_equal (fun f => length (written f))) in H
  | H : @eq (list message) _ _ |- _ => apply (f_equal length) in H
  end;
  unfold written in *; simpl in *; rewrite ?length_app in *; simpl in *; lia.

(** C3. [progress_shim] always returns. The message goes to the error
    stream if and only if the level is [PRG_ERR], and to the standard output
    if and only if it is anything else; the other stream and the library are
    left alone, and the chosen stream has been flushed: everything written to
    it, the new message last, has been delivered and nothing is pending. *)
Theorem progress_shim_routes_by_level
    (privdata : void_ptr) (level : Z) (fmt : string) (args : va_list)
    (w : world) :
  exists w' : world,
    progress_shim privdata level fmt args w = Done tt w' /\
    engine_log w' = engine_log w /\
    (written (err_stream w') = written (err_stream w) ++ [Message fmt args]
     <-> level = PRG_ERR) /\
    (written (out_stream w') = written (out_stream w) ++ [Message fmt args]
     <-> level <> PRG_ERR) /\
    (err_stream w' =
       {| delivered := written (err_stream w) ++ [Message fmt args];
          pending := [] |} /\ out_stream w' = out_stream w
     <-> level = PRG_ERR) /\
    (out_stream w' =
       {| delivered := written (out_stream w) ++ [Message fmt args];
          pending := [] |} /\ err_stream w' = err_stream w
     <-> level <> PRG_ERR) /\
    (level = PRG_INFO \/ level = PRG_DEBUG \/ level = PRG_TRACE ->
     written (out_stream w') = written (out_stream w) ++ [Message fmt args] /\
     pending (out_stream w') = [] /\
     err_stream w' = err_stream w).
Proof.
  destruct w as [[d1 p1] [d2 p2] lg].
  unfold progress_shim, bind, vfprintf, fflush.
  destruct (decide (level = PRG_ERR)) as [He|He]; simpl; eexists;
    (split; [reflexivity|]); simpl; unfold written; simpl;
    (split; [reflexivity|]);
    rewrite ?app_nil_r, <- ?app_assoc;
    repeat split; intros; try done;
    try (unfold PRG_ERR, PRG_INFO, PRG_DEBUG, PRG_TRACE in *; lia);
    exfalso;
    repeat match goal with H : _ /\ _ |- _ => destruct H end; stream_grew.
Qed.

Lemma progress_shim_routes_by_level_witness :
  exists w' : world,
    progress_shim None PRG_DEBUG "Connected to %s\n" [VaStr (Some "host")]
      empty_world = Done tt w' /\
    written (out_stream w') =
      [] ++ [Message "Connected to %s\n" [VaStr (Some "host")]] /\
    pending (out_stream w') = [] /\
    err_stream w' = empty_FILE.
Proof.
  destruct (progress_shim_routes_by_level None PRG_DEBUG "Connected to %s\n"
              [VaStr (Some "host")] empty_world)
    as (w' & Hrun & _ & _ & _ & _ & _ & Hother).
  exists w'. split; [exact Hrun|].
  apply Hother. right. left. reflexivity.
Defined.

(* ===================================================================== *)
(** * The driver *)
(* ===================================================================== *)

Section Driver.

Implicit Types (e : engine) (h : handle) (w : world) (n : negotiation).

(** The negotiation never faults: the callback answers each form. *)
Lemma negotiate_run h n w :
  negotiate (session h) n w =
  Done (negotiation_signal n) (emit stdout (negotiation_output n) w).
Proof.
  revert w. induction n as [signal|form resume IH]; intros w; simpl.
  - unfold ret. by rewrite emit_nil.
  - unfold bind. rewrite process_auth_form_cb_run. simpl.
    rewrite IH. by rewrite emit_emit.
Qed.

Lemma openconnect_obtain_cookie_run e h w :
  openconnect_obtain_cookie e (session h) w =
  Done (negotiation_signal (obtain_cookie_script e h))
       (emit stdout (negotiation_output (obtain_cookie_script e h))
             (logged [Call_obtain_cookie h] w)).
Proof.
  unfold openconnect_obtain_cookie, bind, call. simpl.
  by rewrite negotiate_run.
Qed.

(** The four early exits of [main], and the path through the negotiation. *)
Lemma main_init_ssl_fails e w :
  init_ssl_result e <> 0 ->
  main e w =
  Done 1 (emit stderr [Message "Failed to init SSL\n" []]
            (emit stdout [Message "Initializing OpenConnect...\n" []]
               (logged [Call_init_ssl] w))).
Proof.
  intros H. unfold main, bind, openconnect_init_ssl, bind, call, ret. simpl.
  rewrite decide_True by done. reflexivity.
Qed.

Lemma main_vpninfo_new_fails e w :
  init_ssl_result e = 0 ->
  vpninfo_new_result e = None ->
  main e w =
  Done 1 (emit stderr [Message "Failed to create vpninfo\n" []]
            (emit stdout [Message "Initializing OpenConnect...\n" [];
                          Message "Creating vpninfo...\n" []]
               (logged [Call_init_ssl; Call_vpninfo_new] w))).
Proof.
  intros H0 H1.
  unfold main, bind, openconnect_init_ssl, openconnect_vpninfo_new, bind,
    call, ret. simpl.
  rewrite H0, H1. simpl. unfold emit, logged. simpl.
  by rewrite <- !app_assoc.
Qed.

Lemma main_set_protocol_fails e h w :
  init_ssl_result e = 0 ->
  vpninfo_new_result e = Some h ->
  set_protocol_result e h "f5" <> 0 ->
  main e w =
  Done 1 (emit stderr [Message "Failed to set protocol\n" []]
            (emit stdout [Message "Initializing OpenConnect...\n" [];
                          Message "Creating vpninfo...\n" [];
                          Message "Setting protocol to f5...\n" []]
               (logged [Call_init_ssl; Call_vpninfo_new;
                        Call_set_protocol h "f5"] w))).
Proof.
  intros H0 H1 H2.
  unfold main, bind, openconnect_init_ssl, openconnect_vpninfo_new,
    openconnect_set_protocol, bind, call, ret. simpl.
  rewrite H0, H1. simpl. rewrite decide_True by done.
  unfold emit, logged. simpl. by rewrite <- !app_assoc.
Qed.

Lemma main_parse_url_fails e h w :
  init_ssl_result e = 0 ->
  vpninfo_new_result e = Some h ->
  set_protocol_result e h "f5" = 0 ->
  parse_url_result e h target_url <> 0 ->
  main e w =
  Done 1 (emit stderr [Message "Failed to parse URL\n" []]
            (emit stdout [Message "Initializing OpenConnect...\n" [];
                          Message "Creating vpninfo...\n" [];
                          Message "Setting protocol to f5...\n" [];
                          Message "Parsing URL...\n" []]
               (logged [Call_init_ssl; Call_vpninfo_new;
                        Call_set_protocol h "f5";
                        Call_parse_url h target_url] w))).
Proof.
  intros H0 H1 H2 H3.
  unfold main, bind, openconnect_init_ssl, openconnect_vpninfo_new,
    openconnect_set_protocol, openconnect_parse_url, bind, call, ret. simpl.
  rewrite H0, H1. simpl. rewrite H2. simpl.
  unfold target_url in H3. rewrite decide_True by done.
  unfold emit, logged. simpl. by rewrite <- !app_assoc.
Qed.

Lemma main_negotiates e h w signal w_neg :
  init_ssl_result e = 0 ->
  vpninfo_new_result e = Some h ->
  set_protocol_result e h "f5" = 0 ->
  parse_url_result e h target_url = 0 ->
  openconnect_obtain_cookie e (session h) (configured h w) = Done signal w_neg ->
  main e w =
  Done signal
    (logged [Call_vpninfo_free h]
       (emit (report_stream (classify signal)) [report_message (classify signal)]
          (emit stdout
             [Message "openconnect_obtain_cookie returned: %d\n" [VaInt signal]]
             w_neg))).
Proof.
  intros H0 H1 H2 H3 Hneg.
  pose (cookie := openconnect_obtain_cookie e).
  assert (cookie (session h) (configured h w) = Done signal w_neg) as Hc
    by exact Hneg.
  unfold main. fold cookie. clearbody cookie.
  unfold bind, openconnect_init_ssl, openconnect_vpninfo_new,
    openconnect_set_protocol, openconnect_parse_url, openconnect_disable_dtls,
    openconnect_vpninfo_free, bind, call, ret, printf, fprintf, vfprintf.
  simpl. rewrite H0, H1. simpl. rewrite H2. simpl.
  unfold target_url in H3. rewrite H3. simpl.
  match goal with
  | |- context [cookie ?v ?W] =>
      replace (cookie v W) with (cookie (session h) (configured h w))
  end.
  - rewrite Hc. unfold classify.
    destruct (decide (signal = 0)) as [->|Hs]; simpl.
    + reflexivity.
    + rewrite decide_True by done. reflexivity.
  - unfold session, configured, emit, logged. simpl.
    by rewrite <- !app_assoc.
Qed.

End Driver.

(* ===================================================================== *)
(** * Properties of the driver *)
(* ===================================================================== *)

(** [main] against a library that presents one login form and accepts. *)
Example main_on_accepting_library :
  main {| init_ssl_result := 0; vpninfo_new_result := Some 7%nat;
          set_protocol_result := fun _ _ => 0;
          parse_url_result := fun _ _ => 0;
          obtain_cookie_script := fun _ =>
            Present {| opts := [ {| kind := kind_text; name := Some "username";
                                    label := None; _value := None;
                                    choices := [] |} ] |}
                    (fun r form =>
                       if decide (r = 0 /\ _value <$> opts form = [Some "vicwil"])
                       then Terminal 0 else Terminal (-1)) |}
       empty_world =
  Done 0
    {| out_stream :=
         {| delivered := [];
            pending :=
              [ Message "Initializing OpenConnect...\n" [];
                Message "Creating vpninfo...\n" [];
                Message "Setting protocol to f5...\n" [];
                Message "Parsing URL...\n" [];
                Message "Disabling DTLS...\n" [];
                Message "Obtaining cookie (this will make HTTPS requests)...\n" [];
                Message "Auth form callback called\n" [];
                Message "Field: %s\n" [VaStr (Some "username")];
                Message "openconnect_obtain_cookie returned: %d\n" [VaInt 0];
                Message "Authentication successful!\n" [] ] |};
       err_stream := empty_FILE;
       engine_log :=
         [ Call_init_ssl; Call_vpninfo_new; Call_set_protocol 7%nat "f5";
           Call_parse_url 7%nat "https://access.etraveligroup.com";
           Call_disable_dtls 7%nat; Call_obtain_cookie 7%nat;
           Call_vpninfo_free 7%nat ] |}.
Proof. reflexivity. Qed.

(** C5. When [main] gets as far as the negotiation,
    [openconnect_obtain_cookie] returns a terminal signal, the driver
    returns that very signal and reports its classification, which depends
    on the signal alone: for 0 the success line on the standard
    output and nothing on the error stream, for anything else the failure
    line on the error stream and no success line. *)
Theorem main_classifies_terminal_signal
    (e : engine) (h : handle) (w : world) :
  init_ssl_result e = 0 ->
  vpninfo_new_result e = Some h ->
  set_protocol_result e h "f5" = 0 ->
  parse_url_result e h target_url = 0 ->
  exists (signal : Z) (w_neg w' : world),
    openconnect_obtain_cookie e (session h) (configured h w) =
      Done signal w_neg /\
    main e w = Done signal w' /\
    w' = logged [Call_vpninfo_free h]
           (emit (report_stream (classify signal))
                 [report_message (classify signal)]
              (emit stdout
                 [Message "openconnect_obtain_cookie returned: %d\n"
                          [VaInt signal]] w_neg)) /\
    (signal = 0 ->
       classify signal = Reported_success /\
       written (out_stream w') =
         written (out_stream w_neg) ++
         [Message "openconnect_obtain_cookie returned: %d\n" [VaInt 0];
          Message "Authentication successful!\n" []] /\
       err_stream w' = err_stream w_neg) /\
    (signal <> 0 ->
       classify signal = Reported_failure /\
       written (err_stream w') =
         written (err_stream w_neg) ++ [Message "Authentication failed\n" []] /\
       written (out_stream w') =
         written (out_stream w_neg) ++
         [Message "openconnect_obtain_cookie returned: %d\n" [VaInt signal]]).
Proof.
  intros H0 H1 H2 H3.
  pose proof (openconnect_obtain_cookie_run e h (configured h w)) as Hneg.
  eexists _, _, _. split; [exact Hneg|].
  split; [by apply main_negotiates|]. split; [reflexivity|].
  generalize (negotiation_signal (obtain_cookie_script e h)). intros signal.
  unfold classify. split; intros Hs.
  - subst signal. simpl. split; [done|].
    unfold emit, written. simpl. split; [|done].
    by rewrite <- !app_assoc.
  - rewrite decide_False by done. simpl. split; [done|].
    unfold emit, written. simpl. by rewrite !app_assoc.
Qed.

Lemma main_classifies_terminal_signal_witness :
  exists (signal : Z) (w' : world),
    main {| init_ssl_result := 0; vpninfo_new_result := Some 7%nat;
            set_protocol_result := fun _ _ => 0;
            parse_url_result := fun _ _ => 0;
            obtain_cookie_script := fun _ => Terminal (-13) |}
         empty_world = Done signal w' /\
    signal = -13 /\
    written (err_stream w') = [Message "Authentication failed\n" []].
Proof.
  destruct (main_classifies_terminal_signal
              {| init_ssl_result := 0; vpninfo_new_result := Some 7%nat;
                 set_protocol_result := fun _ _ => 0;
                 parse_url_result := fun _ _ => 0;
                 obtain_cookie_script := fun _ => Terminal (-13) |}
              7%nat empty_world eq_refl eq_refl eq_refl eq_refl)
    as (signal & w_neg & w' & Hneg & Hrun & _ & _ & Hfail).
  assert (signal = -13 /\ err_stream w_neg = empty_FILE) as [Hs Hw].
  { vm_compute in Hneg. by injection Hneg as <- <-. }
  exists signal, w'. split; [exact Hrun|]. split; [exact Hs|].
  destruct Hfail as (_ & Herr & _); [lia|].
  rewrite Herr, Hw. reflexivity.
Defined.

(** C7. When the configure step fails, that is when
    [openconnect_set_protocol] or [openconnect_parse_url] answers nonzero,
    [main] returns the failure code 1 after one message on the error stream
    that names the failed configuration step, and the calls it has made into
    the library stop at that step: [openconnect_obtain_cookie] is not among
    them. *)
Theorem main_configure_failure_skips_negotiation
    (e : engine) (h : handle) (w : world) :
  init_ssl_result e = 0 ->
  vpninfo_new_result e = Some h ->
  set_protocol_result e h "f5" <> 0 \/ parse_url_result e h target_url <> 0 ->
  exists (w' : world) (calls : list engine_call) (m : message),
    main e w = Done 1 w' /\
    engine_log w' = engine_log w ++ calls /\
    (forall h' : handle, Call_obtain_cookie h' ∉ calls) /\
    written (err_stream w') = written (err_stream w) ++ [m] /\
    (set_protocol_result e h "f5" <> 0 ->
       m = Message "Failed to set protocol\n" [] /\
       calls = [Call_init_ssl; Call_vpninfo_new; Call_set_protocol h "f5"]) /\
    (set_protocol_result e h "f5" = 0 ->
       m = Message "Failed to parse URL\n" [] /\
       calls = [Call_init_ssl; Call_vpninfo_new; Call_set_protocol h "f5";
                Call_parse_url h target_url]).
Proof.
  intros H0 H1 Hcfg.
  destruct (decide (set_protocol_result e h "f5" = 0)) as [Hp|Hp].
  - destruct Hcfg as [?|Hu]; [done|].
    eexists _, [Call_init_ssl; Call_vpninfo_new; Call_set_protocol h "f5";
                Call_parse_url h target_url], _.
    split; [by apply main_parse_url_fails|].
    split; [reflexivity|].
    split. { intros h' Hin.
             repeat (apply elem_of_cons in Hin as [Hin|Hin]; [discriminate Hin|]).
             by apply elem_of_nil in Hin. }
    split. { unfold emit, written. simpl. by rewrite app_assoc. }
    split; [done|]. done.
  - eexists _, [Call_init_ssl; Call_vpninfo_new; Call_set_protocol h "f5"], _.
    split; [by apply main_set_protocol_fails|].
    split; [reflexivity|].
    split. { intros h' Hin.
             repeat (apply elem_of_cons in Hin as [Hin|Hin]; [discriminate Hin|]).
             by apply elem_of_nil in Hin. }
    split. { unfold emit, written. simpl. by rewrite app_assoc. }
    split; [done|]. done.
Qed.

Lemma main_configure_failure_skips_negotiation_witness :
  exists (w' : world) (calls : list engine_call) (m : message),
    main {| init_ssl_result := 0; vpninfo_new_result := Some 7%nat;
            set_protocol_result := fun _ _ => -22;
            parse_url_result := fun _ _ => 0;
            obtain_cookie_script := fun _ => Terminal 0 |}
         empty_world = Done 1 w' /\
    engine_log w' = [] ++ calls /\
    (forall h' : handle, Call_obtain_cookie h' ∉ calls) /\
    written (err_stream w') = [] ++ [m].
Proof.
  destruct (main_configure_failure_skips_negotiation
              {| init_ssl_result := 0; vpninfo_new_result := Some 7%nat;
                 set_protocol_result := fun _ _ => -22;
                 parse_url_result := fun _ _ => 0;
                 obtain_cookie_script := fun _ => Terminal 0 |}
              7%nat empty_world eq_refl eq_refl)
    as (w' & calls & m & Hrun & Hlog & Hnone & Herr & _).
  - left. simpl. lia.
  - exists w', calls, m. repeat split; assumption.
Defined.

(** C8. [main] always returns, and each way of failing ends in a nonzero
    return code after one message on the error stream, the destination of
    the Error severity: a failed SSL initialisation, a failed session
    creation, a rejected protocol and an unparsable URL each give the code 1
    and their own message, and a nonzero terminal signal of
    [openconnect_obtain_cookie] gives that signal and the failure message.
    Conversely [main] returns 0 only when none of these happened, and then it
    has written nothing to the error stream. *)
Theorem main_failure_leaves_error_message (e : engine) (w : world) :
  exists (code : Z) (w' : world),
    main e w = Done code w' /\
    (code <> 0 ->
       exists m : message,
         written (err_stream w') = written (err_stream w) ++ [m]) /\
    (code = 0 -> written (err_stream w') = written (err_stream w)) /\
    (init_ssl_result e <> 0 ->
       code = 1 /\
       written (err_stream w') =
         written (err_stream w) ++ [Message "Failed to init SSL\n" []]) /\
    (init_ssl_result e = 0 -> vpninfo_new_result e = None ->
       code = 1 /\
       written (err_stream w') =
         written (err_stream w) ++ [Message "Failed to create vpninfo\n" []]) /\
    (forall h : handle,
       init_ssl_result e = 0 -> vpninfo_new_result e = Some h ->
       set_protocol_result e h "f5" <> 0 ->
       code = 1 /\
       written (err_stream w') =
         written (err_stream w) ++ [Message "Failed to set protocol\n" []]) /\
    (forall h : handle,
       init_ssl_result e = 0 -> vpninfo_new_result e = Some h ->
       set_protocol_result e h "f5" = 0 ->
       parse_url_result e h target_url <> 0 ->
       code = 1 /\
       written (err_stream w') =
         written (err_stream w) ++ [Message "Failed to parse URL\n" []]) /\
    (forall (h : handle) (signal : Z) (w_neg : world),
       init_ssl_result e = 0 -> vpninfo_new_result e = Some h ->
       set_protocol_result e h "f5" = 0 ->
       parse_url_result e h target_url = 0 ->
       openconnect_obtain_cookie e (session h) (configured h w) =
         Done signal w_neg ->
       signal <> 0 ->
       code = signal /\
       written (err_stream w') =
         written (err_stream w) ++ [Message "Authentication failed\n" []]) /\
    (code = 0 ->
       exists (h : handle) (w_neg : world),
         init_ssl_result e = 0 /\ vpninfo_new_result e = Some h /\
         set_protocol_result e h "f5" = 0 /\
         parse_url_result e h target_url = 0 /\
         openconnect_obtain_cookie e (session h) (configured h w) =
           Done 0 w_neg).
Proof.
  destruct (decide (init_ssl_result e = 0)) as [H0|H0].
  2: { eexists _, _. split; [by apply main_init_ssl_fails|].
       assert (forall (outs : list message) (cs : list engine_call)
                      (m : message),
                 written (err_stream (emit stderr [m]
                                        (emit stdout outs (logged cs w)))) =
                 written (err_stream w) ++ [m]) as Herr.
       { intros. unfold emit, written. simpl. by rewrite app_assoc. }
       repeat split; intros; try done; try congruence; eauto. }
  destruct (vpninfo_new_result e) as [h|] eqn:H1.
  2: { eexists _, _. split; [by apply main_vpninfo_new_fails|].
       assert (forall (outs : list message) (cs : list engine_call)
                      (m : message),
                 written (err_stream (emit stderr [m]
                                        (emit stdout outs (logged cs w)))) =
                 written (err_stream w) ++ [m]) as Herr.
       { intros. unfold emit, written. simpl. by rewrite app_assoc. }
       repeat split; intros; try done; try congruence; eauto. }
  destruct (decide (set_protocol_result e h "f5" = 0)) as [H2|H2].
  2: { eexists _, _. split; [by eapply main_set_protocol_fails|].
       assert (forall (outs : list message) (cs : list engine_call)
                      (m : message),
                 written (err_stream (emit stderr [m]
                                        (emit stdout outs (logged cs w)))) =
                 written (err_stream w) ++ [m]) as Herr.
       { intros. unfold emit, written. simpl. by rewrite app_assoc. }
       repeat split; intros; simplify_eq; try done; eauto. }
  destruct (decide (parse_url_result e h target_url = 0)) as [H3|H3].
  2: { eexists _, _. split; [by eapply main_parse_url_fails|].
       assert (forall (outs : list message) (cs : list engine_call)
                      (m : message),
                 written (err_stream (emit stderr [m]
                                        (emit stdout outs (logged cs w)))) =
                 written (err_stream w) ++ [m]) as Herr.
       { intros. unfold emit, written. simpl. by rewrite app_assoc. }
       repeat split; intros; simplify_eq; try done; eauto. }
  pose proof (openconnect_obtain_cookie_run e h (configured h w)) as Hneg.
  eexists _, _.
  split. { eapply main_negotiates; eauto. }
  revert Hneg.
  generalize (negotiation_signal (obtain_cookie_script e h)). intros signal Hneg.
  assert (signal <> 0 ->
          written (err_stream
            (logged [Call_vpninfo_free h]
               (emit (report_stream (classify signal))
                     [report_message (classify signal)]
                  (emit stdout
                     [Message "openconnect_obtain_cookie returned: %d\n"
                              [VaInt signal]]
                     (emit stdout (negotiation_output (obtain_cookie_script e h))
                        (logged [Call_obtain_cookie h] (configured h w))))))) =
          written (err_stream w) ++ [Message "Authentication failed\n" []])
    as Hfail.
  { intros Hs. unfold classify. rewrite decide_False by done.
    unfold emit, written. simpl. by rewrite app_assoc. }
  assert (signal = 0 ->
          written (err_stream
            (logged [Call_vpninfo_free h]
               (emit (report_stream (classify signal))
                     [report_message (classify signal)]
                  (emit stdout
                     [Message "openconnect_obtain_cookie returned: %d\n"
                              [VaInt signal]]
                     (emit stdout (negotiation_output (obtain_cookie_script e h))
                        (logged [Call_obtain_cookie h] (configured h w))))))) =
          written (err_stream w)) as Hsucc.
  { intros ->. reflexivity. }
  split. { intros Hs. eexists. by apply Hfail. }
  split; [exact Hsucc|].
  split; [done|]. split; [done|].
  split. { intros h' _ [= <-] ?. done. }
  split. { intros h' _ [= <-] _ ?. done. }
  split.
  - intros h' signal' w_neg _ [= <-] _ _ Hneg' Hs.
    rewrite Hneg in Hneg'. injection Hneg' as <- _.
    split; [done|]. by apply Hfail.
  - intros ->. exists h. eexists. repeat (split; [done|]). exact Hneg.
Qed.

Lemma main_failure_leaves_error_message_witness :
  exists (code : Z) (w' : world),
    main {| init_ssl_result := 0; vpninfo_new_result := None;
            set_protocol_result := fun _ _ => 0;
            parse_url_result := fun _ _ => 0;
            obtain_cookie_script := fun _ => Terminal 0 |}
         empty_world = Done code w' /\
    code = 1 /\
    written (err_stream w') = [] ++ [Message "Failed to create vpninfo\n" []].
Proof.
  destruct (main_failure_leaves_error_message
              {| init_ssl_result := 0; vpninfo_new_result := None;
                 set_protocol_result := fun _ _ => 0;
                 parse_url_result := fun _ _ => 0;
                 obtain_cookie_script := fun _ => Terminal 0 |}
              empty_world)
    as (code & w' & Hrun & _ & _ & _ & Hnew & _).
  exists code, w'. split; [exact Hrun|].
  exact (Hnew eq_refl eq_refl).
Defined.

(** When the configuration succeeds, the session is released exactly once,
    as the last call into the library, whatever the terminal signal. *)
Lemma main_releases_after_negotiation (e : engine) (h : handle) (w : world) :
  init_ssl_result e = 0 ->
  vpninfo_new_result e = Some h ->
  set_protocol_result e h "f5" = 0 ->
  parse_url_result e h target_url = 0 ->
  exists (code : Z) (w' : world),
    main e w = Done code w' /\
    engine_log w' =
      engine_log w ++
      [Call_init_ssl; Call_vpninfo_new; Call_set_protocol h "f5";
       Call_parse_url h target_url; Call_disable_dtls h;
       Call_obtain_cookie h; Call_vpninfo_free h].
Proof.
  intros H0 H1 H2 H3. eexists _, _.
  split. { eapply main_negotiates; eauto. apply openconnect_obtain_cookie_run. }
  unfold configured. simpl.
  repeat (rewrite engine_log_emit; simpl).
  by rewrite <- !app_assoc.
Qed.

(** C4 (failing input). The library creates the session 7 and then rejects
    the protocol: [main] returns 1 after three calls into the library, and
    [openconnect_vpninfo_free] is not one of them, so the session that was
    created is never released. *)
Theorem main_leaks_session_when_configure_fails :
  exists w' : world,
    main {| init_ssl_result := 0; vpninfo_new_result := Some 7%nat;
            set_protocol_result := fun _ _ => -22;
            parse_url_result := fun _ _ => 0;
            obtain_cookie_script := fun _ => Terminal 0 |}
         empty_world = Done 1 w' /\
    engine_log w' =
      [Call_init_ssl; Call_vpninfo_new; Call_set_protocol 7%nat "f5"] /\
    releases 7%nat (engine_log w') = 0%nat.
Proof. eexists. split; [reflexivity|]. split; reflexivity. Qed.

(* ===================================================================== *)
(** * Further properties of the auth-form callback *)
(* ===================================================================== *)

Section CallbackFacts.

Implicit Types (opt : oc_form_opt) (l : list oc_form_opt) (n pat : string).

Lemma string_length_append (s1 s2 : string) :
  String.length (s1 +:+ s2) = (String.length s1 + String.length s2)%nat.
Proof. induction s1 as [|c s1 IH]; simpl; [done|]. by rewrite IH. Qed.

Lemma contains_length n pat :
  contains n pat -> (String.length pat <= String.length n)%nat.
Proof.
  intros (pre & post & ->). rewrite !string_length_append. lia.
Qed.

Lemma static_map_provider_short n :
  (String.length n < 4)%nat -> static_map_provider n = None.
Proof.
  intros Hlen. apply static_map_provider_none.
  split; intros [H|H]; apply contains_length in H; simpl in H; lia.
Qed.

Lemma filled_filled opt : filled (filled opt) = filled opt.
Proof.
  unfold filled. destruct (supplied opt) as [v|] eqn:E.
  - change (supplied (set_value opt (Some v))) with (supplied opt).
    by rewrite E.
  - by rewrite E.
Qed.

Lemma field_names_filled l : field_names (filled <$> l) = field_names l.
Proof.
  unfold field_names. induction l as [|opt l IH]; csimpl; [done|].
  destruct (filled_untouched opt) as (-> & _). by rewrite IH.
Qed.

End CallbackFacts.

(** X1. The callback is idempotent on forms: run on the form that it has
    just filled, it returns 0 again, leaves that form as it is, and prints
    the same lines a second time. *)
Theorem process_auth_form_cb_idempotent
    (privdata : void_ptr) (form : oc_auth_form) (w : world) :
  exists (form' : oc_auth_form) (w1 w2 : world),
    process_auth_form_cb privdata form w = Done (0, form') w1 /\
    process_auth_form_cb privdata form' w1 = Done (0, form') w2 /\
    written (out_stream w2) =
      written (out_stream w1) ++
      callback_banner :: (field_line <$> field_names (opts form)).
Proof.
  set (lines := callback_banner :: (field_line <$> field_names (opts form))).
  exists {| opts := filled <$> opts form |},
    (emit stdout lines w), (emit stdout lines (emit stdout lines w)).
  split; [apply process_auth_form_cb_run|].
  split; [|apply (written_emit_same stdout)].
  rewrite process_auth_form_cb_run. simpl.
  rewrite field_names_filled. fold lines.
  do 3 f_equal. rewrite <- list_fmap_compose.
  apply list_fmap_ext. intros i opt _. apply filled_filled.
Qed.

(** X2. The callback works field by field: on a form whose fields are
    those of one list followed by those of another, the fields it leaves and
    the field lines it prints are those of the two lists processed on their
    own, one after the other. *)
Theorem process_auth_form_cb_app
    (privdata : void_ptr) (l1 l2 : list oc_form_opt) (w : world) :
  exists (r1 r2 : list oc_form_opt) (o1 o2 : list message),
    process_auth_form_cb privdata {| opts := l1 |} w =
      Done (0, {| opts := r1 |}) (emit stdout (callback_banner :: o1) w) /\
    process_auth_form_cb privdata {| opts := l2 |} w =
      Done (0, {| opts := r2 |}) (emit stdout (callback_banner :: o2) w) /\
    process_auth_form_cb privdata {| opts := l1 ++ l2 |} w =
      Done (0, {| opts := r1 ++ r2 |})
           (emit stdout (callback_banner :: o1 ++ o2) w).
Proof.
  exists (filled <$> l1), (filled <$> l2),
    (field_line <$> field_names l1), (field_line <$> field_names l2).
  rewrite !process_auth_form_cb_run. simpl.
  split; [done|]. split; [done|].
  unfold field_names. by rewrite fmap_app, omap_app, fmap_app.
Qed.

(** X3. A field whose name has fewer than four characters, the empty name
    included, is too short for any of the four patterns: it is printed like
    every named field and comes back exactly as it arrived. *)
Theorem process_auth_form_cb_short_name
    (privdata : void_ptr) (form : oc_auth_form) (w : world)
    (i : nat) (opt : oc_form_opt) (n : string) :
  opts form !! i = Some opt ->
  name opt = Some n ->
  (String.length n < 4)%nat ->
  exists (form' : oc_auth_form) (w' : world),
    process_auth_form_cb privdata form w = Done (0, form') w' /\
    opts form' !! i = Some opt /\
    field_line n ∈ written (out_stream w').
Proof.
  intros Hi Hn Hlen.
  set (lines := callback_banner :: (field_line <$> field_names (opts form))).
  exists {| opts := filled <$> opts form |}, (emit stdout lines w).
  split; [apply process_auth_form_cb_run|].
  split.
  - simpl. rewrite list_lookup_fmap, Hi. simpl. f_equal.
    unfold filled, supplied. rewrite Hn. simpl.
    by rewrite static_map_provider_short.
  - assert (written (out_stream (emit stdout lines w)) =
            written (out_stream w) ++ lines) as ->
      by apply (written_emit_same stdout).
    apply elem_of_app. right.
    apply elem_of_cons. right. apply list_elem_of_fmap_2.
    unfold field_names. apply list_elem_of_omap. exists opt.
    split; [by eapply list_elem_of_lookup_2|done].
Qed.

Lemma process_auth_form_cb_short_name_witness :
  exists (form' : oc_auth_form) (w' : world),
    process_auth_form_cb None
      {| opts := [ {| kind := kind_text; name := Some "pin";
                      label := None; _value := None; choices := [] |} ] |}
      empty_world = Done (0, form') w' /\
    opts form' !! 0%nat =
      Some {| kind := kind_text; name := Some "pin";
              label := None; _value := None; choices := [] |} /\
    field_line "pin" ∈ written (out_stream w').
Proof.
  apply (process_auth_form_cb_short_name None
           {| opts := [ {| kind := kind_text; name := Some "pin";
                           label := None; _value := None; choices := [] |} ] |}
           empty_world 0
           {| kind := kind_text; name := Some "pin";
              label := None; _value := None; choices := [] |} "pin").
  - reflexivity.
  - reflexivity.
  - simpl. lia.
Defined.

(** X5. The callback keeps its effects to the standard output: it writes
    nothing to the error stream, makes no call into the library, and what it
    writes to the standard output is one line for the call and one for each
    named field. *)
Theorem process_auth_form_cb_effects
    (privdata : void_ptr) (form : oc_auth_form) (w : world) :
  exists (form' : oc_auth_form) (w' : world) (lines : list message),
    process_auth_form_cb privdata form w = Done (0, form') w' /\
    written (err_stream w') = written (err_stream w) /\
    engine_log w' = engine_log w /\
    written (out_stream w') = written (out_stream w) ++ lines /\
    length lines =
      S (length (filter (fun opt => is_Some (name opt)) (opts form))).
Proof.
  set (lines := callback_banner :: (field_line <$> field_names (opts form))).
  exists {| opts := filled <$> opts form |}, (emit stdout lines w), lines.
  split; [apply process_auth_form_cb_run|].
  split; [reflexivity|]. split; [reflexivity|].
  split; [apply (written_emit_same stdout)|].
  unfold lines. simpl. f_equal. rewrite length_fmap. unfold field_names.
  induction (opts form) as [|opt l IH]; csimpl; [done|].
  rewrite filter_cons.
  destruct (name opt) as [n|] eqn:Hn; case_decide as Hd; simpl.
  - by rewrite IH.
  - destruct Hd. eauto.
  - by destruct Hd.
  - done.
Qed.

(** X6. What a field leaves with depends on its name and on the value it
    arrived with, and on nothing else: two fields with the same name and the
    same arriving value leave with the same value, whatever their kinds,
    labels, allowed choices and positions, the forms they are in, the
    [privdata] and the state of the streams. *)
Theorem process_auth_form_cb_value_by_name
    (privdata1 privdata2 : void_ptr) (form1 form2 : oc_auth_form)
    (w1 w2 : world) (i j : nat) (opt1 opt2 : oc_form_opt) :
  opts form1 !! i = Some opt1 ->
  opts form2 !! j = Some opt2 ->
  name opt1 = name opt2 ->
  _value opt1 = _value opt2 ->
  exists (form1' form2' : oc_auth_form) (w1' w2' : world)
         (opt1' opt2' : oc_form_opt),
    process_auth_form_cb privdata1 form1 w1 = Done (0, form1') w1' /\
    process_auth_form_cb privdata2 form2 w2 = Done (0, form2') w2' /\
    opts form1' !! i = Some opt1' /\
    opts form2' !! j = Some opt2' /\
    _value opt1' = _value opt2'.
Proof.
  intros Hi Hj Hn Hv.
  eexists _, _, _, _, (filled opt1), (filled opt2).
  split; [apply process_auth_form_cb_run|].
  split; [apply process_auth_form_cb_run|]. simpl.
  split; [by rewrite list_lookup_fmap, Hi|].
  split; [by rewrite list_lookup_fmap, Hj|].
  rewrite !filled_value. unfold supplied. by rewrite Hn, Hv.
Qed.

Lemma process_auth_form_cb_value_by_name_witness :
  exists (form1' form2' : oc_auth_form) (w1' w2' : world)
         (opt1' opt2' : oc_form_opt),
    process_auth_form_cb None
      {| opts := [ {| kind := kind_text; name := Some "passcode";
                      label := None; _value := None; choices := [] |} ] |}
      empty_world = Done (0, form1') w1' /\
    process_auth_form_cb (Some 1%nat)
      {| opts := [ {| kind := kind_text; name := None;
                      label := None; _value := None; choices := [] |};
                   {| kind := kind_choice; name := Some "passcode";
                      label := Some "Code"; _value := None;
                      choices := ["push"; "sms"] |} ] |}
      empty_world = Done (0, form2') w2' /\
    opts form1' !! 0%nat = Some opt1' /\
    opts form2' !! 1%nat = Some opt2' /\
    _value opt1' = _value opt2'.
Proof.
  apply (process_auth_form_cb_value_by_name None (Some 1%nat)
           {| opts := [ {| kind := kind_text; name := Some "passcode";
                           label := None; _value := None; choices := [] |} ] |}
           {| opts := [ {| kind := kind_text; name := None;
                           label := None; _value := None; choices := [] |};
                        {| kind := kind_choice; name := Some "passcode";
                           label := Some "Code"; _value := None;
                           choices := ["push"; "sms"] |} ] |}
           empty_world empty_world 0 1
           {| kind := kind_text; name := Some "passcode";
              label := None; _value := None; choices := [] |}
           {| kind := kind_choice; name := Some "passcode";
              label := Some "Code"; _value := None;
              choices := ["push"; "sms"] |});
    reflexivity.
Defined.

(* ===================================================================== *)
(** * Further properties of the progress shim *)
(* ===================================================================== *)

Lemma progress_shim_run (privdata : void_ptr) (level : Z) (fmt : string)
    (args : va_list) (w : world) :
  progress_shim privdata level fmt args w =
  Done tt
    (if decide (level = PRG_ERR) then
       {| out_stream := out_stream w;
          err_stream :=
            {| delivered := written (err_stream w) ++ [Message fmt args];
               pending := [] |};
          engine_log := engine_log w |}
     else
       {| out_stream :=
            {| delivered := written (out_stream w) ++ [Message fmt args];
               pending := [] |};
          err_stream := err_stream w;
          engine_log := engine_log w |}).
Proof.
  unfold progress_shim, bind, vfprintf, fflush, written.
  destruct (decide (level = PRG_ERR)); simpl; by rewrite app_assoc.
Qed.

(** X7. A series of progress reports keeps its order on each stream: the
    error stream receives the reports of level [PRG_ERR] in the order of the
    calls, the standard output all the others in the order of the calls. A
    stream that received a report has been flushed, a stream that received
    none is as it was, and no call into the library is made. *)
Theorem progress_shim_all_keeps_order
    (privdata : void_ptr) (ems : list emission) (w : world) :
  exists w' : world,
    progress_shim_all privdata ems w = Done tt w' /\
    engine_log w' = engine_log w /\
    written (err_stream w') =
      written (err_stream w) ++
      (emission_message <$> filter (fun em => emission_level em = PRG_ERR) ems) /\
    written (out_stream w') =
      written (out_stream w) ++
      (emission_message <$> filter (fun em => emission_level em <> PRG_ERR) ems) /\
    (Exists (fun em => emission_level em = PRG_ERR) ems ->
       pending (err_stream w') = []) /\
    (Forall (fun em => emission_level em <> PRG_ERR) ems ->
       err_stream w' = err_stream w) /\
    (Exists (fun em => emission_level em <> PRG_ERR) ems ->
       pending (out_stream w') = []) /\
    (Forall (fun em => emission_level em = PRG_ERR) ems ->
       out_stream w' = out_stream w).
Proof.
  revert w. induction ems as [|em rest IH]; intros w.
  - exists w. split; [reflexivity|]. split; [done|].
    rewrite !filter_nil. simpl. rewrite !app_nil_r.
    repeat split; try done; intros H; by apply Exists_nil in H.
  - simpl. unfold bind. rewrite progress_shim_run.
    rewrite !filter_cons.
    destruct (decide (emission_level em = PRG_ERR)) as [He|He].
    + destruct (IH {| out_stream := out_stream w;
                      err_stream :=
                        {| delivered :=
                             written (err_stream w) ++ [Message em.1.2 em.2];
                           pending := [] |};
                      engine_log := engine_log w |})
        as (w' & Hrun & Hlog & Herr & Hout & HpE & HsE & HpO & HsO).
      simpl in *. exists w'. split; [exact Hrun|]. split; [exact Hlog|].
      rewrite decide_False by (by intros Hne; apply Hne).
      split. { rewrite Herr. unfold written at 1. simpl.
               rewrite app_nil_r. unfold emission_message.
               by rewrite <- !app_assoc. }
      split; [exact Hout|].
      split. { intros _.
               destruct (decide (Exists (fun em0 => emission_level em0 = PRG_ERR)
                                        rest)) as [Hex|Hex].
               - by apply HpE.
               - apply not_Exists_Forall in Hex; [|intros ?; apply _].
                 rewrite HsE; [done|]. exact Hex. }
      split. { intros Hall. apply Forall_cons in Hall as [Hne _]. done. }
      split. { intros Hex. apply Exists_cons in Hex as [Hne|Hex]; [done|].
               by apply HpO. }
      intros Hall. apply Forall_cons in Hall as [_ Hall]. by apply HsO.
    + destruct (IH {| out_stream :=
                        {| delivered :=
                             written (out_stream w) ++ [Message em.1.2 em.2];
                           pending := [] |};
                      err_stream := err_stream w;
                      engine_log := engine_log w |})
        as (w' & Hrun & Hlog & Herr & Hout & HpE & HsE & HpO & HsO).
      simpl in *. exists w'. split; [exact Hrun|]. split; [exact Hlog|].
      rewrite decide_True by done.
      split; [exact Herr|].
      split. { rewrite Hout. unfold written at 1. simpl.
               rewrite app_nil_r. unfold emission_message.
               by rewrite <- !app_assoc. }
      split. { intros Hex. apply Exists_cons in Hex as [Hne|Hex]; [done|].
               by apply HpE. }
      split. { intros Hall. apply Forall_cons in Hall as [_ Hall]. by apply HsE. }
      split. { intros _.
               destruct (decide (Exists (fun em0 => emission_level em0 <> PRG_ERR)
                                        rest)) as [Hex|Hex].
               - by apply HpO.
               - apply not_Exists_Forall in Hex; [|intros ?; apply _].
                 rewrite HsO; [done|].
                 eapply Forall_impl; [exact Hex|]. simpl.
                 intros x Hx. destruct (decide (emission_level x = PRG_ERR)); tauto. }
      intros Hall. apply Forall_cons in Hall as [Heq _]. done.
Qed.

Lemma progress_shim_all_keeps_order_witness :
  exists w' : world,
    progress_shim_all None
      [ (PRG_INFO, "Connecting\n", []); (PRG_ERR, "Refused\n", []);
        (PRG_DEBUG, "Retrying\n", []); (PRG_ERR, "Gave up\n", []) ]
      empty_world = Done tt w' /\
    written (err_stream w') =
      [] ++ [ Message "Refused\n" []; Message "Gave up\n" [] ] /\
    written (out_stream w') =
      [] ++ [ Message "Connecting\n" []; Message "Retrying\n" [] ] /\
    pending (err_stream w') = [] /\
    pending (out_stream w') = [].
Proof.
  destruct (progress_shim_all_keeps_order None
              [ (PRG_INFO, "Connecting\n", []); (PRG_ERR, "Refused\n", []);
                (PRG_DEBUG, "Retrying\n", []); (PRG_ERR, "Gave up\n", []) ]
              empty_world)
    as (w' & Hrun & _ & Herr & Hout & HpE & _ & HpO & _).
  exists w'. split; [exact Hrun|].
  split; [exact Herr|]. split; [exact Hout|].
  split.
  - apply HpE. apply Exists_cons. right. apply Exists_cons. left. reflexivity.
  - apply HpO. apply Exists_cons. left. vm_compute. discriminate.
Defined.

(* ===================================================================== *)
(** * Further properties of the driver *)
(* ===================================================================== *)

Section DriverFacts.

Implicit Types (e : engine) (h : handle) (w : world) (n : negotiation).

(** During a negotiation the callback prints its banner and field lines,
    nothing else. *)
Lemma negotiation_output_lines n (m : message) :
  m ∈ negotiation_output n ->
  m = callback_banner \/ exists field_name : string, m = field_line field_name.
Proof.
  induction n as [signal|form resume IH]; simpl.
  - intros H. by apply elem_of_nil in H.
  - rewrite elem_of_cons, elem_of_app, list_elem_of_fmap.
    intros [H|[(x & -> & _)|H]]; eauto.
Qed.

(** Every run of [main] takes one of five paths; on each the return code
    and what was added to the two streams and to the log are known. *)
Lemma main_paths e w :
  exists (code : Z) (outs errs : list message) (calls : list engine_call),
    main e w = Done code (emit stderr errs (emit stdout outs (logged calls w))) /\
    ((init_ssl_result e <> 0 /\ code = 1 /\
      calls = [Call_init_ssl] /\
      errs = [Message "Failed to init SSL\n" []] /\
      outs = [Message "Initializing OpenConnect...\n" []]) \/
     (init_ssl_result e = 0 /\ vpninfo_new_result e = None /\ code = 1 /\
      calls = [Call_init_ssl; Call_vpninfo_new] /\
      errs = [Message "Failed to create vpninfo\n" []] /\
      outs = [Message "Initializing OpenConnect...\n" [];
              Message "Creating vpninfo...\n" []]) \/
     (exists h,
        init_ssl_result e = 0 /\ vpninfo_new_result e = Some h /\
        set_protocol_result e h "f5" <> 0 /\ code = 1 /\
        calls = [Call_init_ssl; Call_vpninfo_new; Call_set_protocol h "f5"] /\
        errs = [Message "Failed to set protocol\n" []] /\
        outs = [Message "Initializing OpenConnect...\n" [];
                Message "Creating vpninfo...\n" [];
                Message "Setting protocol to f5...\n" []]) \/
     (exists h,
        init_ssl_result e = 0 /\ vpninfo_new_result e = Some h /\
        set_protocol_result e h "f5" = 0 /\
        parse_url_result e h target_url <> 0 /\ code = 1 /\
        calls = [Call_init_ssl; Call_vpninfo_new; Call_set_protocol h "f5";
                 Call_parse_url h target_url] /\
        errs = [Message "Failed to parse URL\n" []] /\
        outs = [Message "Initializing OpenConnect...\n" [];
                Message "Creating vpninfo...\n" [];
                Message "Setting protocol to f5...\n" [];
                Message "Parsing URL...\n" []]) \/
     (exists h,
        init_ssl_result e = 0 /\ vpninfo_new_result e = Some h /\
        set_protocol_result e h "f5" = 0 /\
        parse_url_result e h target_url = 0 /\
        code = negotiation_signal (obtain_cookie_script e h) /\
        calls = full_calls h /\
        errs = (if decide (code = 0) then []
                else [Message "Authentication failed\n" []]) /\
        outs = [Message "Initializing OpenConnect...\n" [];
                Message "Creating vpninfo...\n" [];
                Message "Setting protocol to f5...\n" [];
                Message "Parsing URL...\n" [];
                Message "Disabling DTLS...\n" [];
                Message "Obtaining cookie (this will make HTTPS requests)...\n" []]
               ++ negotiation_output (obtain_cookie_script e h)
               ++ Message "openconnect_obtain_cookie returned: %d\n" [VaInt code]
               :: (if decide (code = 0)
                   then [Message "Authentication successful!\n" []]
                   else []))).
Proof.
  destruct w as [[d1 p1] [d2 p2] lg].
  destruct (decide (init_ssl_result e = 0)) as [H0|H0].
  2: { eexists _, _, _, _. split; [|left; eauto 10].
       by rewrite main_init_ssl_fails. }
  destruct (vpninfo_new_result e) as [h|] eqn:H1.
  2: { eexists _, _, _, _. split; [|right; left; eauto 10].
       by rewrite main_vpninfo_new_fails. }
  destruct (decide (set_protocol_result e h "f5" = 0)) as [H2|H2].
  2: { eexists _, _, _, _. split; [|right; right; left; eauto 10].
       by rewrite (main_set_protocol_fails e h). }
  destruct (decide (parse_url_result e h target_url = 0)) as [H3|H3].
  2: { eexists _, _, _, _.
       split; [|right; right; right; left; exists h; eauto 10].
       by rewrite (main_parse_url_fails e h). }
  eexists _, _, _, _.
  split; [|right; right; right; right; exists h; eauto 10].
  erewrite main_negotiates; eauto using openconnect_obtain_cookie_run.
  f_equal. unfold classify, configured, full_calls, emit, logged. simpl.
  destruct (decide (negotiation_signal (obtain_cookie_script e h) = 0));
    simpl; rewrite <- ?app_assoc; simpl; rewrite ?app_nil_r; reflexivity.
Qed.

End DriverFacts.

Lemma main_releases_after_negotiation_witness :
  exists (code : Z) (w' : world),
    main {| init_ssl_result := 0; vpninfo_new_result := Some 7%nat;
            set_protocol_result := fun _ _ => 0;
            parse_url_result := fun _ _ => 0;
            obtain_cookie_script := fun _ => Terminal (-13) |}
         empty_world = Done code w' /\
    engine_log w' =
      [] ++
      [Call_init_ssl; Call_vpninfo_new; Call_set_protocol 7%nat "f5";
       Call_parse_url 7%nat target_url; Call_disable_dtls 7%nat;
       Call_obtain_cookie 7%nat; Call_vpninfo_free 7%nat].
Proof.
  apply (main_releases_after_negotiation
           {| init_ssl_result := 0; vpninfo_new_result := Some 7%nat;
              set_protocol_result := fun _ _ => 0;
              parse_url_result := fun _ _ => 0;
              obtain_cookie_script := fun _ => Terminal (-13) |}
           7%nat empty_world);
    reflexivity.
Defined.

(** X8. The calls that [main] makes into the library follow one fixed
    protocol: they start with [openconnect_init_ssl] and form an initial
    segment of the full sequence on the handle that
    [openconnect_vpninfo_new] returned (of the first two calls when it
    returned NULL, so that no call is ever made on a NULL handle). A run that
    reaches [openconnect_obtain_cookie] goes through the whole sequence,
    ending with [openconnect_vpninfo_free]. *)
Theorem main_call_protocol (e : engine) (w : world) :
  exists (code : Z) (w' : world) (calls : list engine_call),
    main e w = Done code w' /\
    engine_log w' = engine_log w ++ calls /\
    head calls = Some Call_init_ssl /\
    match vpninfo_new_result e with
    | Some h => calls `prefix_of` full_calls h
    | None => calls `prefix_of` [Call_init_ssl; Call_vpninfo_new]
    end /\
    (forall h : handle, Call_obtain_cookie h ∈ calls -> calls = full_calls h).
Proof.
  destruct (main_paths e w) as (code & outs & errs & calls & Hrun & Hpath).
  exists code, (emit stderr errs (emit stdout outs (logged calls w))), calls.
  split; [exact Hrun|]. split; [by rewrite !engine_log_emit|].
  assert (forall h' (l : list engine_call),
            Call_obtain_cookie h' ∈ l ->
            Forall (fun c => forall h'', c <> Call_obtain_cookie h'') l ->
            False) as Hnone.
  { intros h' l Hin Hall. rewrite Forall_forall in Hall.
    by apply (Hall _ Hin h'). }
  destruct Hpath as
    [(H0 & -> & -> & _)
    |[(H0 & H1 & -> & -> & _)
     |[(h & H0 & H1 & H2 & -> & -> & _)
      |[(h & H0 & H1 & H2 & H3 & -> & -> & _)
       |(h & H0 & H1 & H2 & H3 & _ & -> & _)]]]].
  - split; [done|]. split.
    + destruct (vpninfo_new_result e); by eexists.
    + intros h Hin. exfalso. eapply Hnone; [exact Hin|].
      repeat constructor; intros ?; discriminate.
  - rewrite H1. split; [done|]. split; [by exists []|].
    intros h Hin. exfalso. eapply Hnone; [exact Hin|].
    repeat constructor; intros ?; discriminate.
  - rewrite H1. split; [done|]. split; [by eexists|].
    intros h' Hin. exfalso. eapply Hnone; [exact Hin|].
    repeat constructor; intros ?; discriminate.
  - rewrite H1. split; [done|]. split; [by eexists|].
    intros h' Hin. exfalso. eapply Hnone; [exact Hin|].
    repeat constructor; intros ?; discriminate.
  - rewrite H1. split; [done|]. split; [by exists []|].
    intros h' Hin. unfold full_calls in Hin.
    repeat (apply elem_of_cons in Hin as [Hin|Hin];
            [try discriminate Hin|]).
    + by injection Hin as ->.
    + by apply elem_of_nil in Hin.
Qed.

Lemma main_call_protocol_witness :
  exists (code : Z) (w' : world) (calls : list engine_call),
    main {| init_ssl_result := 0; vpninfo_new_result := Some 7%nat;
            set_protocol_result := fun _ _ => 0;
            parse_url_result := fun _ _ => -22;
            obtain_cookie_script := fun _ => Terminal 0 |}
         empty_world = Done code w' /\
    engine_log w' = [] ++ calls /\
    calls `prefix_of` full_calls 7%nat.
Proof.
  destruct (main_call_protocol
              {| init_ssl_result := 0; vpninfo_new_result := Some 7%nat;
                 set_protocol_result := fun _ _ => 0;
                 parse_url_result := fun _ _ => -22;
                 obtain_cookie_script := fun _ => Terminal 0 |}
              empty_world)
    as (code & w' & calls & Hrun & Hlog & _ & Hprefix & _).
  exists code, w', calls. repeat split; assumption.
Defined.

(** X10. [main] returns 0 exactly when it has printed the success line on
    the standard output; and then every step before it succeeded and the
    run went through the whole call sequence, the release of the session
    included. *)
Theorem main_zero_iff_success_line (e : engine) (w : world) :
  exists (code : Z) (w' : world) (outs : list message),
    main e w = Done code w' /\
    written (out_stream w') = written (out_stream w) ++ outs /\
    (code = 0 <-> Message "Authentication successful!\n" [] ∈ outs) /\
    (code = 0 ->
       exists h : handle,
         init_ssl_result e = 0 /\
         vpninfo_new_result e = Some h /\
         set_protocol_result e h "f5" = 0 /\
         parse_url_result e h target_url = 0 /\
         engine_log w' = engine_log w ++ full_calls h).
Proof.
  destruct (main_paths e w) as (code & outs & errs & calls & Hrun & Hpath).
  exists code, (emit stderr errs (emit stdout outs (logged calls w))), outs.
  split; [exact Hrun|].
  split. { unfold emit, logged, written. simpl. by rewrite app_assoc. }
  destruct Hpath as
    [(H0 & -> & _ & _ & ->)
    |[(H0 & H1 & -> & _ & _ & ->)
     |[(h & H0 & H1 & H2 & -> & _ & _ & ->)
      |[(h & H0 & H1 & H2 & H3 & -> & _ & _ & ->)
       |(h & H0 & H1 & H2 & H3 & Hcode & -> & _ & ->)]]]].
  1-4: split; [|done]; split; [done|]; intros Hin;
       repeat (apply elem_of_cons in Hin as [Hin|Hin]; [discriminate Hin|]);
       by apply elem_of_nil in Hin.
  split.
  - split.
    + intros Hz. rewrite decide_True by done.
      rewrite !elem_of_app. right. right.
      apply elem_of_cons. right. apply elem_of_cons. by left.
    + intros Hin. destruct (decide (code = 0)) as [Hz|Hz]; [done|].
      exfalso. rewrite !elem_of_app in Hin.
      destruct Hin as [Hin|[Hin|Hin]].
      * repeat (apply elem_of_cons in Hin as [Hin|Hin]; [discriminate Hin|]).
        by apply elem_of_nil in Hin.
      * apply negotiation_output_lines in Hin as [Hin|[fn Hin]]; discriminate Hin.
      * repeat (apply elem_of_cons in Hin as [Hin|Hin]; [discriminate Hin|]).
        by apply elem_of_nil in Hin.
  - intros _. exists h. repeat (split; [assumption|]).
    by rewrite !engine_log_emit.
Qed.

Lemma main_zero_iff_success_line_witness :
  exists (code : Z) (w' : world) (outs : list message),
    main {| init_ssl_result := 0; vpninfo_new_result := Some 7%nat;
            set_protocol_result := fun _ _ => 0;
            parse_url_result := fun _ _ => 0;
            obtain_cookie_script := fun _ => Terminal 0 |}
         empty_world = Done code w' /\
    code = 0 /\
    Message "Authentication successful!\n" [] ∈ outs /\
    engine_log w' = [] ++ full_calls 7%nat.
Proof.
  destruct (main_zero_iff_success_line
              {| init_ssl_result := 0; vpninfo_new_result := Some 7%nat;
                 set_protocol_result := fun _ _ => 0;
                 parse_url_result := fun _ _ => 0;
                 obtain_cookie_script := fun _ => Terminal 0 |}
              empty_world)
    as (code & w' & outs & Hrun & _ & Hiff & Hall).
  assert (code = 0) as Hc.
  { vm_compute in Hrun. by injection Hrun as <- _. }
  exists code, w', outs. split; [exact Hrun|]. split; [exact Hc|].
  split; [by apply Hiff|].
  destruct (Hall Hc) as (h & _ & Hh & _ & _ & Hlog).
  injection Hh as <-. exact Hlog.
Defined.

(* ===================================================================== *)
(** * Matching is by substring *)
(* ===================================================================== *)

Lemma string_append_assoc (s1 s2 s3 : string) :
  (s1 +:+ s2) +:+ s3 = s1 +:+ s2 +:+ s3.
Proof.
  induction s1 as [|c s1 IH]; [done|].
  change (String c ((s1 +:+ s2) +:+ s3) = String c (s1 +:+ s2 +:+ s3)).
  by rewrite IH.
Qed.

Lemma contains_extend (n pat pre post : string) :
  contains n pat -> contains (pre +:+ n +:+ post) pat.
Proof.
  intros (a & b & ->). exists (pre +:+ a), (b +:+ post).
  by rewrite !string_append_assoc.
Qed.

(** X11. Because names are matched by substring, matching survives any
    text put around a name: if a field that arrives unset leaves with the
    identity value, so does every field whose name contains that field's
    name, and if it leaves with any value, so does every such field. *)
Theorem process_auth_form_cb_extension_stable
    (privdata1 privdata2 : void_ptr) (form1 form2 : oc_auth_form)
    (w1 w2 : world) (i j : nat) (opt1 opt2 : oc_form_opt)
    (n pre post : string) :
  opts form1 !! i = Some opt1 ->
  opts form2 !! j = Some opt2 ->
  name opt1 = Some n ->
  name opt2 = Some (pre +:+ n +:+ post) ->
  _value opt1 = None ->
  exists (form1' form2' : oc_auth_form) (w1' w2' : world)
         (opt1' opt2' : oc_form_opt),
    process_auth_form_cb privdata1 form1 w1 = Done (0, form1') w1' /\
    process_auth_form_cb privdata2 form2 w2 = Done (0, form2') w2' /\
    opts form1' !! i = Some opt1' /\
    opts form2' !! j = Some opt2' /\
    (_value opt1' = Some "vicwil" -> _value opt2' = Some "vicwil") /\
    (is_Some (_value opt1') -> is_Some (_value opt2')).
Proof.
  intros Hi Hj Hn1 Hn2 Hv.
  exists {| opts := filled <$> opts form1 |}, {| opts := filled <$> opts form2 |},
    (emit stdout (callback_banner :: (field_line <$> field_names (opts form1))) w1),
    (emit stdout (callback_banner :: (field_line <$> field_names (opts form2))) w2),
    (filled opt1), (filled opt2).
  split; [apply process_auth_form_cb_run|].
  split; [apply process_auth_form_cb_run|]. simpl.
  split; [by rewrite list_lookup_fmap, Hi|].
  split; [by rewrite list_lookup_fmap, Hj|].
  rewrite !filled_value. unfold supplied. rewrite Hn1, Hn2, Hv. simpl.
  split.
  - intros H1.
    assert (static_map_provider n = Some identity_value) as Hid
      by (by destruct (static_map_provider n)).
    apply static_map_provider_identity in Hid.
    assert (static_map_provider (pre +:+ n +:+ post) = Some identity_value) as ->.
    { apply static_map_provider_identity.
      destruct Hid; [left|right]; by apply contains_extend. }
    done.
  - intros H1.
    assert (is_Some (static_map_provider n)) as Hs
      by (by destruct (static_map_provider n); [eauto|destruct H1]).
    apply static_map_provider_some in Hs.
    assert (is_Some (static_map_provider (pre +:+ n +:+ post))) as [v ->].
    { apply static_map_provider_some.
      destruct Hs as [?|[?|[?|?]]];
        [left|right; left|right; right; left|right; right; right];
        by apply contains_extend. }
    eauto.
Qed.

Lemma process_auth_form_cb_extension_stable_witness :
  exists (form1' form2' : oc_auth_form) (w1' w2' : world)
         (opt1' opt2' : oc_form_opt),
    process_auth_form_cb None
      {| opts := [ {| kind := kind_text; name := Some "name";
                      label := None; _value := None; choices := [] |} ] |}
      empty_world = Done (0, form1') w1' /\
    process_auth_form_cb None
      {| opts := [ {| kind := kind_text; name := Some "hostname_pass";
                      label := None; _value := None; choices := [] |} ] |}
      empty_world = Done (0, form2') w2' /\
    opts form1' !! 0%nat = Some opt1' /\
    opts form2' !! 0%nat = Some opt2' /\
    (_value opt1' = Some "vicwil" -> _value opt2' = Some "vicwil") /\
    (is_Some (_value opt1') -> is_Some (_value opt2')).
Proof.
  apply (process_auth_form_cb_extension_stable None None
           {| opts := [ {| kind := kind_text; name := Some "name";
                           label := None; _value := None; choices := [] |} ] |}
           {| opts := [ {| kind := kind_text; name := Some "hostname_pass";
                           label := None; _value := None; choices := [] |} ] |}
           empty_world empty_world 0 0
           {| kind := kind_text; name := Some "name";
              label := None; _value := None; choices := [] |}
           {| kind := kind_text; name := Some "hostname_pass";
              label := None; _value := None; choices := [] |}
           "name" "host" "_pass");
    reflexivity.
Defined.
